(** * Soil water characteristics

    A shallow embedding of [environmental_biophysics/soil.py]: the
    pedotransfer regressions of Saxton & Rawls (2006) and the Campbell (1985)
    retention curve, together with the properties stated about them, and of
    the vapour-pressure formulas of [environmental_biophysics/gas.py].

    Numbers.  The source computes on Python floats (binary64).  Here a float
    is a real number ([R]) and [+], [-], [*], [/], [ln] and the power are the
    exact ones: rounding inside the range, infinities and NaN are not part of
    the model.  What the model keeps is the control flow of the Python
    operators, which is where the functions can fail: [/] raises on a zero
    divisor, [math.log] raises on a non-positive argument, [**] raises on
    [0 ** negative], raises [OverflowError] when the power leaves the binary64
    range, returns [0.0] when it underflows, and leaves the floats for a
    negative base with a fractional exponent; [assert] raises when its
    condition is false.

    Because rounding is not modelled, the theorems about computed values are
    stated so that they remain true of the binary64 program: over magnitudes
    well inside the range ([ordinary]), with closed bounds where a rounded
    result can reach the bound, and with a tolerance where two computations
    agree only up to rounding.  Module [B64] evaluates the functions that
    use nothing but [+], [-], [*] and [/] in binary64 itself, to exhibit the
    rounding where a statement depends on it. *)

From Stdlib Require Import Reals Lra Psatz Lia String Floats.

Local Open Scope R_scope.

(** ** The fragment of the Python runtime used by [soil.py] *)

Module Py.

(** The exceptions the source can raise. *)
Inductive exn : Type :=
| AssertionError (msg : string)
| ValueError
| ZeroDivisionError
| OverflowError.

(** Outcome of evaluating an expression: a value or a raised exception. *)
Inductive result (A : Type) : Type :=
| Ok (a : A)
| Raise (e : exn).

Arguments Ok {A} a.
Arguments Raise {A} e.

Definition bind {A B : Type} (c : result A) (k : A -> result B) : result B :=
  match c with
  | Ok a => k a
  | Raise e => Raise e
  end.

(** What [float ** float] evaluates to: a float, or a complex number when
    the base is negative and the exponent is not an integer. *)
Inductive num : Type :=
| Float (r : R)
| Complex (re im : R).

(** [y] holds an integer value. *)
Definition is_integer (y : R) : bool :=
  if Req_dec_T y (IZR (Int_part y)) then true else false.

(** [x / y] *)
Definition truediv (x y : R) : result R :=
  if Req_dec_T y 0 then Raise ZeroDivisionError else Ok (x / y).

(** [math.log(x)] *)
Definition log (x : R) : result R :=
  if Rlt_dec 0 x then Ok (ln x) else Raise ValueError.

(** The ends of the binary64 range under rounding to nearest: a magnitude of
    at least [DBL_OVERFLOW] rounds to infinity, a magnitude of at most
    [DBL_UNDERFLOW] rounds to zero. *)
Definition DBL_OVERFLOW : R := 2 ^ 1024 - 2 ^ 970.
Definition DBL_UNDERFLOW : R := / 2 ^ 1075.

(** What [float ** float] makes of the exact power [r]: a result that
    overflows raises [OverflowError], a result that underflows is [0.0]. *)
Definition float_of (r : R) : result R :=
  if Rle_dec DBL_OVERFLOW (Rabs r) then Raise OverflowError
  else if Rle_dec (Rabs r) DBL_UNDERFLOW then Ok 0
  else Ok r.

(** [x ** y] on floats. *)
Definition pow (x y : R) : result num :=
  match total_order_T 0 x with
  | inleft (left _) => bind (float_of (Rpower x y)) (fun v => Ok (Float v))
  | inleft (right _) =>
      match total_order_T 0 y with
      | inleft (left _) => Ok (Float 0)
      | inleft (right _) => Ok (Float 1)
      | inright _ => Raise ZeroDivisionError
      end
  | inright _ =>
      if is_integer y then
        bind (float_of (powerRZ x (Int_part y))) (fun v => Ok (Float v))
      else if Rle_dec DBL_OVERFLOW (Rpower (- x) y) then Raise OverflowError
      else Ok (Complex (Rpower (- x) y * cos (PI * y))
                       (Rpower (- x) y * sin (PI * y)))
  end.

(** [a * n] for a float [a]. *)
Definition mul (a : R) (n : num) : num :=
  match n with
  | Float r => Float (a * r)
  | Complex re im => Complex (a * re) (a * im)
  end.

(** [assert c, msg] where [c] is the comparison [0 < x]. *)
Definition assert_pos (x : R) (msg : string) : result unit :=
  if Rlt_dec 0 x then Ok tt else Raise (AssertionError msg).

End Py.

Import Py.

Notation "x <- c ;; k" := (bind c (fun x => k))
  (at level 61, c at next level, right associativity).

(** ** The error vocabulary of the specification

    The specification names failures by kind.  A failed [assert] is its
    invalid-argument error, the [ValueError] of [math.log] its domain error,
    and [ZeroDivisionError] and [OverflowError] (both subclasses of Python's
    [ArithmeticError]) its arithmetic error. *)

Inductive error_kind : Type :=
| InvalidArgumentError
| DomainError
| ArithmeticError.

Definition kind_of (e : exn) : error_kind :=
  match e with
  | AssertionError _ => InvalidArgumentError
  | ValueError => DomainError
  | ZeroDivisionError => ArithmeticError
  | OverflowError => ArithmeticError
  end.

Definition fails_with {A : Type} (r : result A) (k : error_kind) : Prop :=
  exists e, r = Raise e /\ kind_of e = k.

(** A strictly positive magnitude well inside the binary64 range, where a
    float carries its full precision. *)
Definition ordinary (r : R) : Prop := 1e-300 <= r <= 1e300.

(** ** [soil.py] *)

Definition MIN_SOIL_PARTICLE_DENS : R := 2.65.

Definition vol_water_content_33_j_kg (clay sand organic_matter : R) : R :=
  let x1 :=
    0.299
    - 0.251 * sand
    + 0.195 * clay
    + 0.011 * organic_matter
    + 0.006 * sand * organic_matter
    - 0.027 * clay * organic_matter
    + 0.452 * sand * clay in
  - 0.015 + 0.636 * x1 + 1.283 * x1 ^ 2.

Definition vol_water_content_1500_jkg (clay sand organic_matter : R) : R :=
  let x1 :=
    0.031
    - 0.024 * sand
    + 0.487 * clay
    + 0.006 * organic_matter
    + 0.005 * sand * organic_matter
    - 0.013 * clay * organic_matter
    + 0.068 * sand * clay in
  - 0.02 + 1.14 * x1.

(** The saturated water content that [get_bulk_density] builds in its local
    variable [sat_water_content] before converting it to a density. *)
Definition sat_water_content_est (clay sand organic_matter : R) : R :=
  let x1 :=
    0.078
    + 0.278 * sand
    + 0.034 * clay
    + 0.022 * organic_matter
    - 0.018 * sand * organic_matter
    - 0.027 * clay * organic_matter
    - 0.584 * sand * clay in
  let x2 := - 0.107 + 1.636 * x1 in
  let field_capacity := vol_water_content_33_j_kg clay sand organic_matter in
  0.043 + field_capacity + x2 - 0.097 * sand.

Definition get_bulk_density (clay sand organic_matter : R) : R :=
  (1 - sat_water_content_est clay sand organic_matter) * MIN_SOIL_PARTICLE_DENS.

Definition sat_water_content (bulk_density : R) : result R :=
  q <- truediv bulk_density MIN_SOIL_PARTICLE_DENS ;;
  Ok (1 - q).

Definition b_value (water_content_33_j_kg water_content_1500_j_kg : R)
  : result R :=
  l1500 <- log 1500 ;;
  l33 <- log 33 ;;
  lfc <- log water_content_33_j_kg ;;
  lwp <- log water_content_1500_j_kg ;;
  truediv (l1500 - l33) (lfc - lwp).

Definition air_entry_pot (field_capacity sat_water_content b_value : R)
  : result num :=
  ratio <- truediv field_capacity sat_water_content ;;
  p <- pow ratio b_value ;;
  Ok (mul (- 33) p).

Definition water_potential
  (sat_water_content air_entry_potential campbell_b water_content : R)
  : result num :=
  _ <- assert_pos sat_water_content "sat water content must be positive" ;;
  _ <- assert_pos water_content "water content must be positive" ;;
  ratio <- truediv sat_water_content water_content ;;
  p <- pow ratio campbell_b ;;
  Ok (mul air_entry_potential p).

Definition water_content
  (sat_water_content air_entry_potential campbell_b water_potential : R)
  : result num :=
  ratio <- truediv water_potential air_entry_potential ;;
  e <- truediv (- 1) campbell_b ;;
  p <- pow ratio e ;;
  Ok (mul sat_water_content p).

Definition organic_m (clay : R) : R := 1.81 + 0.032 * clay * 100.

(** ** [gas.py] *)

Definition vapor_pressure_air
  (vapor_pressure_temp_min vapor_pressure_temp_max rh_max rh_min : R)
  : result R :=
  lo <- truediv (vapor_pressure_temp_min * rh_max) 100.0 ;;
  hi <- truediv (vapor_pressure_temp_max * rh_min) 100.0 ;;
  Ok (0.5 * (lo + hi)).

Definition vapor_press_defct_ave
  (max_sat_vap_press min_sat_vap_press air_vap_press : R) : result R :=
  mean <- truediv (max_sat_vap_press + min_sat_vap_press) 2.0 ;;
  Ok (mean - air_vap_press).



(** ** Binary64 evaluation of the arithmetic-only functions

    [get_bulk_density], [vol_water_content_33_j_kg] and [sat_water_content]
    use only [+], [-], [*], [/] and a square, which binary64 rounds
    correctly; these are the same expressions on primitive floats, with the
    square [x1 ** 2] taken as the correctly rounded product [x1 * x1]. *)

Set Warnings "-inexact-float".

Module B64.

Local Open Scope float_scope.

Definition MIN_SOIL_PARTICLE_DENS : float := 2.65.

Definition vol_water_content_33_j_kg (clay sand organic_matter : float)
  : float :=
  let x1 :=
    0.299
    - 0.251 * sand
    + 0.195 * clay
    + 0.011 * organic_matter
    + 0.006 * sand * organic_matter
    - 0.027 * clay * organic_matter
    + 0.452 * sand * clay in
  - 0.015 + 0.636 * x1 + 1.283 * (x1 * x1).

Definition sat_water_content_est (clay sand organic_matter : float) : float :=
  let x1 :=
    0.078
    + 0.278 * sand
    + 0.034 * clay
    + 0.022 * organic_matter
    - 0.018 * sand * organic_matter
    - 0.027 * clay * organic_matter
    - 0.584 * sand * clay in
  let x2 := - 0.107 + 1.636 * x1 in
  let field_capacity := vol_water_content_33_j_kg clay sand organic_matter in
  0.043 + field_capacity + x2 - 0.097 * sand.

Definition get_bulk_density (clay sand organic_matter : float) : float :=
  (1 - sat_water_content_est clay sand organic_matter) * MIN_SOIL_PARTICLE_DENS.

Definition sat_water_content (bulk_density : float) : float :=
  1 - bulk_density / MIN_SOIL_PARTICLE_DENS.

End B64.

(** ** Facts about the runtime operators *)

Section Runtime.

Lemma truediv_ok (x y : R) : y <> 0 -> truediv x y = Ok (x / y).
Proof.
  intros Hy. unfold truediv.
  destruct (Req_dec_T y 0) as [E | _]; [contradiction | reflexivity].
Qed.

Lemma truediv_zero (x : R) : truediv x 0 = Raise ZeroDivisionError.
Proof.
  unfold truediv. destruct (Req_dec_T 0 0) as [_ | N]; [reflexivity | now elim N].
Qed.

Lemma log_ok (x : R) : 0 < x -> log x = Ok (ln x).
Proof.
  intros Hx. unfold log.
  destruct (Rlt_dec 0 x) as [_ | N]; [reflexivity | contradiction].
Qed.

Lemma log_domain (x : R) : x <= 0 -> log x = Raise ValueError.
Proof.
  intros Hx. unfold log.
  destruct (Rlt_dec 0 x) as [P | _]; [lra | reflexivity].
Qed.

Lemma assert_pos_ok (x : R) (msg : string) : 0 < x -> assert_pos x msg = Ok tt.
Proof.
  intros Hx. unfold assert_pos.
  destruct (Rlt_dec 0 x) as [_ | N]; [reflexivity | contradiction].
Qed.

Lemma assert_pos_fails (x : R) (msg : string) :
  x <= 0 -> assert_pos x msg = Raise (AssertionError msg).
Proof.
  intros Hx. unfold assert_pos.
  destruct (Rlt_dec 0 x) as [P | _]; [lra | reflexivity].
Qed.

(** The [ordinary] magnitudes lie strictly inside the binary64 range. *)
Lemma range_ends :
  0 < DBL_UNDERFLOW /\ DBL_UNDERFLOW < 1e-300
  /\ 1e300 < DBL_OVERFLOW /\ DBL_OVERFLOW < 1e309.
Proof.
  unfold DBL_UNDERFLOW, DBL_OVERFLOW. repeat split; lra.
Qed.

Lemma ordinary_pos (r : R) : ordinary r -> 0 < r.
Proof. intros [Hlo _]. lra. Qed.

Lemma ordinary_1 : ordinary 1.
Proof. unfold ordinary. lra. Qed.

Lemma ordinary_inv (r : R) : ordinary r -> ordinary (/ r).
Proof.
  intros [Hlo Hhi]. assert (Hr : 0 < r) by lra.
  assert (Hi : 0 < / r) by (apply Rinv_0_lt_compat; assumption).
  assert (Hone : r * / r = 1) by (apply Rinv_r; lra).
  split.
  - apply Rmult_le_reg_l with r; [assumption |]. rewrite Hone.
    apply Rle_trans with (1e300 * 1e-300); [| lra].
    apply Rmult_le_compat_r; lra.
  - apply Rmult_le_reg_l with r; [assumption |]. rewrite Hone.
    apply Rle_trans with (1e-300 * 1e300); [lra |].
    apply Rmult_le_compat_r; lra.
Qed.

Lemma ordinary_between (lo r hi : R) :
  ordinary lo -> ordinary hi -> lo <= r <= hi -> ordinary r.
Proof. intros [Hlo _] [_ Hhi] [H1 H2]. split; lra. Qed.

Lemma float_of_ordinary (r : R) : ordinary r -> float_of r = Ok r.
Proof.
  intros [Hlo Hhi]. destruct range_ends as [_ [Hu [Ho _]]].
  unfold float_of. rewrite Rabs_right by lra.
  destruct (Rle_dec DBL_OVERFLOW r) as [F | _]; [lra |].
  destruct (Rle_dec r DBL_UNDERFLOW) as [F | _]; [lra | reflexivity].
Qed.

Lemma float_of_overflow (r : R) :
  DBL_OVERFLOW <= r -> float_of r = Raise OverflowError.
Proof.
  intros Hr. destruct range_ends as [_ [_ [Ho _]]].
  unfold float_of. rewrite Rabs_right by lra.
  destruct (Rle_dec DBL_OVERFLOW r) as [_ | F]; [reflexivity | contradiction].
Qed.

Lemma float_of_underflow (r : R) :
  0 <= r <= DBL_UNDERFLOW -> float_of r = Ok 0.
Proof.
  intros [H0 Hr]. destruct range_ends as [_ [Hu [Ho _]]].
  unfold float_of. rewrite Rabs_right by lra.
  destruct (Rle_dec DBL_OVERFLOW r) as [F | _]; [lra |].
  destruct (Rle_dec r DBL_UNDERFLOW) as [_ | F]; [reflexivity | contradiction].
Qed.

(** Below the overflow threshold a non-negative power is returned as it is
    or flushed to zero. *)
Lemma float_of_below (r : R) :
  0 <= r -> r < DBL_OVERFLOW ->
  exists v, float_of r = Ok v /\ 0 <= v <= r /\ (ordinary r -> v = r).
Proof.
  intros H0 Hr. unfold float_of. rewrite Rabs_right by lra.
  destruct (Rle_dec DBL_OVERFLOW r) as [F | _]; [lra |].
  destruct (Rle_dec r DBL_UNDERFLOW) as [U | _].
  - exists 0. split; [reflexivity | split; [lra |]].
    intros [Hlo _]. destruct range_ends as [_ [Hu _]]. lra.
  - exists r. split; [reflexivity | split; [lra | reflexivity]].
Qed.

Lemma pow_pos_base (x y : R) :
  0 < x -> pow x y = bind (float_of (Rpower x y)) (fun v => Ok (Float v)).
Proof.
  intros Hx. unfold pow.
  destruct (total_order_T 0 x) as [[_ | E] | G]; [reflexivity | lra | lra].
Qed.

Lemma pow_ordinary (x y : R) :
  0 < x -> ordinary (Rpower x y) -> pow x y = Ok (Float (Rpower x y)).
Proof.
  intros Hx Hr. rewrite pow_pos_base, float_of_ordinary by assumption.
  reflexivity.
Qed.

Lemma pow_overflow (x y : R) :
  0 < x -> DBL_OVERFLOW <= Rpower x y -> pow x y = Raise OverflowError.
Proof.
  intros Hx Hr. rewrite pow_pos_base, float_of_overflow by assumption.
  reflexivity.
Qed.

Lemma is_integer_INR (n : nat) : is_integer (INR n) = true.
Proof.
  unfold is_integer. rewrite Int_part_INR, <- INR_IZR_INZ.
  destruct (Req_dec_T (INR n) (INR n)) as [_ | N]; [reflexivity | now elim N].
Qed.

(** The square [x1 ** 2] of the field-capacity regression is the product
    [x1 * x1], whatever the sign of [x1], as long as it stays in range. *)
Lemma pow_2 (x : R) : x = 0 \/ ordinary (x ^ 2) -> pow x 2 = Ok (Float (x ^ 2)).
Proof.
  intros Hx. replace 2 with (INR 2) by (simpl; lra).
  unfold pow. destruct (total_order_T 0 x) as [[P | E] | G].
  - destruct Hx as [E | Hr]; [lra |].
    rewrite Rpower_pow, float_of_ordinary by assumption. reflexivity.
  - destruct (total_order_T 0 (INR 2)) as [[_ | E2] | G2].
    + subst x. do 2 f_equal. simpl. lra.
    + simpl in E2. lra.
    + simpl in G2. lra.
  - destruct Hx as [E | Hr]; [lra |].
    rewrite is_integer_INR, Int_part_INR, <- pow_powerRZ.
    rewrite float_of_ordinary by assumption. reflexivity.
Qed.

Lemma Rpower_one_base (y : R) : Rpower 1 y = 1.
Proof. unfold Rpower. rewrite ln_1, Rmult_0_r. apply exp_0. Qed.

Lemma pow_one_base (y : R) : pow 1 y = Ok (Float 1).
Proof.
  rewrite <- (Rpower_one_base y) at 2. apply pow_ordinary; [lra |].
  rewrite Rpower_one_base. apply ordinary_1.
Qed.

Lemma Rpower_lt_1 (x y : R) : 0 < x < 1 -> 0 < y -> 0 < Rpower x y < 1.
Proof.
  intros [Hx0 Hx1] Hy. split.
  - apply exp_pos.
  - rewrite <- (Rpower_one_base y). apply Rlt_Rpower_l; lra.
Qed.

Lemma Rpower_inverse (x y : R) : 0 < x -> y <> 0 -> Rpower (Rpower x y) (- 1 / y) = / x.
Proof.
  intros Hx Hy. rewrite Rpower_mult.
  replace (y * (- 1 / y)) with (- (1)) by (field; exact Hy).
  rewrite Rpower_Ropp, Rpower_1; [reflexivity | exact Hx].
Qed.

Lemma Rpower_ge_1_iff (x y : R) : 0 < x -> 0 < y -> (1 <= Rpower x y <-> 1 <= x).
Proof.
  intros Hx Hy. split; intros H.
  - destruct (Rle_lt_dec 1 x) as [Hle | Hlt]; [assumption |].
    assert (Hx1 : 0 < x < 1) by lra.
    pose proof (Rpower_lt_1 x y Hx1 Hy). lra.
  - rewrite <- (Rpower_one_base y). apply Rle_Rpower_l; lra.
Qed.

Lemma Rpower_nat (x : R) (n : nat) (z : Z) :
  0 < x -> z = Z.of_nat n -> Rpower x (IZR z) = x ^ n.
Proof.
  intros Hx ->. rewrite <- INR_IZR_INZ. apply Rpower_pow. exact Hx.
Qed.

End Runtime.

(** ** The retention-curve functions where no guard fires *)

Section ClosedForms.

Variables theta_s psi_e b : R.

Lemma water_potential_pow (theta : R) :
  0 < theta_s -> 0 < theta ->
  water_potential theta_s psi_e b theta
  = bind (pow (theta_s / theta) b) (fun p => Ok (mul psi_e p)).
Proof.
  intros Hs Ht. unfold water_potential.
  rewrite !assert_pos_ok by assumption. cbn [bind].
  rewrite truediv_ok by lra. reflexivity.
Qed.

Lemma water_potential_ok (theta : R) :
  0 < theta_s -> 0 < theta -> ordinary (Rpower (theta_s / theta) b) ->
  water_potential theta_s psi_e b theta
  = Ok (Float (psi_e * Rpower (theta_s / theta) b)).
Proof.
  intros Hs Ht Hr. rewrite water_potential_pow by assumption.
  rewrite pow_ordinary by (try apply Rdiv_lt_0_compat; assumption).
  reflexivity.
Qed.

Lemma water_content_pow (psi : R) :
  psi_e <> 0 -> b <> 0 ->
  water_content theta_s psi_e b psi
  = bind (pow (psi / psi_e) (- 1 / b)) (fun p => Ok (mul theta_s p)).
Proof.
  intros He Hb. unfold water_content.
  rewrite !truediv_ok by assumption. reflexivity.
Qed.

Lemma water_content_ok (psi : R) :
  psi_e <> 0 -> b <> 0 -> 0 < psi / psi_e ->
  ordinary (Rpower (psi / psi_e) (- 1 / b)) ->
  water_content theta_s psi_e b psi
  = Ok (Float (theta_s * Rpower (psi / psi_e) (- 1 / b))).
Proof.
  intros He Hb Hr Ho. rewrite water_content_pow by assumption.
  rewrite pow_ordinary by assumption. reflexivity.
Qed.

End ClosedForms.

Lemma air_entry_pot_pow (field_capacity swc b : R) :
  swc <> 0 ->
  air_entry_pot field_capacity swc b
  = bind (pow (field_capacity / swc) b) (fun p => Ok (mul (- 33) p)).
Proof.
  intros Hs. unfold air_entry_pot. rewrite truediv_ok by assumption.
  reflexivity.
Qed.

Lemma air_entry_pot_ok (field_capacity swc b : R) :
  0 < field_capacity -> 0 < swc -> ordinary (Rpower (field_capacity / swc) b) ->
  air_entry_pot field_capacity swc b
  = Ok (Float (- 33 * Rpower (field_capacity / swc) b)).
Proof.
  intros Hf Hs Hr. rewrite air_entry_pot_pow by lra.
  rewrite pow_ordinary by (try apply Rdiv_lt_0_compat; assumption).
  reflexivity.
Qed.

Lemma sat_water_content_ok (bulk_density : R) :
  sat_water_content bulk_density = Ok (1 - bulk_density / 2.65).
Proof.
  unfold sat_water_content, MIN_SOIL_PARTICLE_DENS.
  rewrite truediv_ok by lra. reflexivity.
Qed.


(** ** The documented examples

    The values printed in the docstrings of [soil.py], reproduced by the
    model (to the two decimals the docstrings show where they are rounded). *)

Ltac regression :=
  unfold get_bulk_density, sat_water_content_est, vol_water_content_33_j_kg,
    vol_water_content_1500_jkg, organic_m, MIN_SOIL_PARTICLE_DENS;
  cbv zeta; try apply Rabs_le; lra.

Example get_bulk_density_loam :
  Rabs (get_bulk_density 0.15 0.2 2.29 - 1.39) <= 0.005.
Proof. regression. Qed.

Example vol_water_content_33_j_kg_sand :
  Rabs (vol_water_content_33_j_kg 0.03 0.92 1.906 - 0.08) <= 0.005.
Proof. regression. Qed.

Example vol_water_content_33_j_kg_clay_loam :
  Rabs (vol_water_content_33_j_kg 0.33 0.09 2.866 - 0.38) <= 0.005.
Proof. regression. Qed.

Example vol_water_content_1500_jkg_sand :
  Rabs (vol_water_content_1500_jkg 0.03 0.92 1.906 - 0.03) <= 0.005.
Proof. regression. Qed.

Example vol_water_content_1500_jkg_clay_loam :
  Rabs (vol_water_content_1500_jkg 0.33 0.09 2.866 - 0.21) <= 0.005.
Proof. regression. Qed.

Example organic_m_half_clay : organic_m 0.5 = 3.41.
Proof. regression. Qed.

Example organic_m_sand : Rabs (organic_m 0.03 - 1.91) <= 0.005.
Proof. regression. Qed.

Lemma Rpower_2_5 : Rpower (0.5 / 0.25) 5 = 32.
Proof.
  replace (0.5 / 0.25) with 2 by lra.
  rewrite (Rpower_nat 2 5 5) by (reflexivity || lra). lra.
Qed.

Example water_potential_above_saturation :
  water_potential 0.20 (- 1.0) 4 0.25 = Ok (Float (- 0.4096)).
Proof.
  assert (E : Rpower (0.20 / 0.25) 4 = 0.4096).
  { replace (0.20 / 0.25) with 0.8 by lra.
    rewrite (Rpower_nat 0.8 4 4) by (reflexivity || lra). lra. }
  rewrite water_potential_ok; [| lra | lra | rewrite E; unfold ordinary; lra].
  rewrite E. do 2 f_equal. lra.
Qed.

(** ** The retention curve: anchoring, guards and the round trip *)

(** C10.  For every saturated water content [theta_s > 0], every air-entry
    potential and every shape parameter, the retention curve evaluated at
    saturation returns the air-entry potential itself: the base of the power
    is [theta_s / theta_s = 1] and [1 ** b = 1]. *)
Theorem water_potential_at_saturation (theta_s psi_e b : R) :
  0 < theta_s ->
  water_potential theta_s psi_e b theta_s = Ok (Float psi_e).
Proof.
  intros Hs. rewrite water_potential_pow by assumption.
  replace (theta_s / theta_s) with 1 by (field; lra).
  rewrite pow_one_base. cbn [bind mul]. do 2 f_equal. ring.
Qed.

Lemma water_potential_at_saturation_witness :
  0 < 0.5 /\ water_potential 0.5 (- 1.5) 5 0.5 = Ok (Float (- 1.5)).
Proof.
  split; [lra | apply (water_potential_at_saturation 0.5 (- 1.5) 5); lra].
Defined.

Lemma Rpower_2_5000 : DBL_OVERFLOW <= Rpower (0.5 / 0.25) 5000.
Proof.
  replace (0.5 / 0.25) with 2 by lra.
  rewrite (Rpower_nat 2 5000 5000) by (reflexivity || lra).
  unfold DBL_OVERFLOW.
  assert (2 ^ 1024 <= 2 ^ 5000) by (apply Rle_pow; [lra | lia]).
  assert (0 < 2 ^ 970) by (apply pow_lt; lra).
  lra.
Qed.

(** C7, as stated, fails: with both preconditions met, a shape parameter of
    5000 makes the power [2.0 ** 5000] leave the float range, and the call
    raises [OverflowError] instead of returning a potential. *)
Lemma water_potential_overflows :
  (0 < 0.5 /\ 0 < 0.25)
  /\ water_potential 0.5 (- 1.5) 5000 0.25 = Raise OverflowError.
Proof.
  split; [lra |].
  rewrite water_potential_pow by lra.
  rewrite pow_overflow; [reflexivity | lra | apply Rpower_2_5000].
Qed.

(** C7, amended.  With both the saturated water content and the water
    content strictly positive, [water_potential] returns
    [psi_e * (theta_s / theta) ** b] when the ratio and its power are of
    ordinary magnitude, and raises [OverflowError] when the power exceeds the
    float range (in both cases for an ordinary ratio and [|b| <= 1000]);
    when either
    content is zero or negative the call fails on one of its two assertions
    (the invalid-argument error), before the division and the power are
    evaluated. *)
Theorem water_potential_guards (theta_s psi_e b theta : R) :
  (0 < theta_s -> 0 < theta ->
   ordinary (theta_s / theta) -> Rabs b <= 1000 ->
   ordinary (Rpower (theta_s / theta) b) ->
   water_potential theta_s psi_e b theta
   = Ok (Float (psi_e * Rpower (theta_s / theta) b)))
  /\ (0 < theta_s -> 0 < theta ->
      ordinary (theta_s / theta) -> Rabs b <= 1000 ->
      1e309 <= Rpower (theta_s / theta) b ->
      water_potential theta_s psi_e b theta = Raise OverflowError)
  /\ (theta_s <= 0 \/ theta <= 0 ->
      fails_with (water_potential theta_s psi_e b theta) InvalidArgumentError).
Proof.
  split; [| split].
  - intros Hs Ht _ _ Hp. apply water_potential_ok; assumption.
  - intros Hs Ht _ _ Hp. rewrite water_potential_pow by assumption.
    rewrite pow_overflow; [reflexivity | apply Rdiv_lt_0_compat; assumption |].
    destruct range_ends as [_ [_ [_ Ho]]]. lra.
  - intros Hbad. unfold water_potential.
    destruct (Rlt_le_dec 0 theta_s) as [Hs | Hs].
    + destruct Hbad as [Hbad | Hbad]; [lra |].
      rewrite assert_pos_ok by assumption. cbn [bind].
      rewrite assert_pos_fails by assumption. cbn [bind].
      eexists. split; reflexivity.
    + rewrite assert_pos_fails by assumption. cbn [bind].
      eexists. split; reflexivity.
Qed.

Lemma Rpower_10_400 : 1e309 <= Rpower (1 / 0.1) 400.
Proof.
  replace (1 / 0.1) with 10 by lra.
  rewrite (Rpower_nat 10 400 400) by (reflexivity || lra).
  assert (10 ^ 309 <= 10 ^ 400) by (apply Rle_pow; [lra | lia]).
  lra.
Qed.

Lemma water_potential_guards_witness :
  water_potential 0.5 (- 1.5) 5 0.25
  = Ok (Float (- 1.5 * Rpower (0.5 / 0.25) 5))
  /\ water_potential 1 (- 1.5) 400 0.1 = Raise OverflowError
  /\ fails_with (water_potential 0.5 (- 1.5) 5 0) InvalidArgumentError
  /\ fails_with (water_potential (- 0.5) (- 1.5) 5 0.25) InvalidArgumentError.
Proof.
  split; [| split; [| split]].
  - apply (proj1 (water_potential_guards 0.5 (- 1.5) 5 0.25)); try lra.
    + unfold ordinary. lra.
    + rewrite Rabs_right; lra.
    + rewrite Rpower_2_5. unfold ordinary. lra.
  - apply (proj1 (proj2 (water_potential_guards 1 (- 1.5) 400 0.1)));
      try lra.
    + unfold ordinary. lra.
    + rewrite Rabs_right; lra.
    + apply Rpower_10_400.
  - apply (proj2 (proj2 (water_potential_guards 0.5 (- 1.5) 5 0))). right. lra.
  - apply (proj2 (proj2 (water_potential_guards (- 0.5) (- 1.5) 5 0.25))).
    left. lra.
Defined.

(** C1, as stated, fails: inside its hypotheses ([theta_s = 0.5 > 0],
    [psi_e = -1.5 < 0], [b = 5000 > 0], [0 < 0.25 <= 0.5]) the first leg of
    the round trip raises [OverflowError], so there is no potential to
    convert back. *)
Lemma round_trip_overflows :
  (0 < 0.5 /\ - 1.5 < 0 /\ 0 < 5000 /\ 0 < 0.25 <= 0.5)
  /\ ~ exists psi, water_potential 0.5 (- 1.5) 5000 0.25 = Ok (Float psi).
Proof.
  split; [lra |]. intros [psi H].
  rewrite water_potential_pow in H by lra.
  rewrite pow_overflow in H; [discriminate H | lra | apply Rpower_2_5000].
Qed.

(** C1, amended.  Round trip up to tolerance.  For a bundle with
    [theta_s > 0], [psi_e < 0] and [0.001 <= b <= 1000], and a water content
    [0 < theta <= theta_s], such that the contents, their ratio, its power,
    the air-entry potential and the resulting potential are all of ordinary
    magnitude, [water_potential] returns a potential, and [water_content]
    applied to that potential returns [theta] within a relative tolerance of
    [1e-9]. *)
Theorem water_content_water_potential (theta_s psi_e b theta : R) :
  psi_e < 0 -> 0.001 <= b <= 1000 -> 0 < theta <= theta_s ->
  ordinary theta -> ordinary theta_s -> ordinary (theta_s / theta) ->
  ordinary (Rpower (theta_s / theta) b) ->
  ordinary (- psi_e) -> ordinary (- psi_e * Rpower (theta_s / theta) b) ->
  exists psi theta',
    water_potential theta_s psi_e b theta = Ok (Float psi)
    /\ water_content theta_s psi_e b psi = Ok (Float theta')
    /\ Rabs (theta' - theta) <= 1e-9 * theta.
Proof.
  intros He [Hb _] [Ht Hts] _ _ Hr Hp _ _.
  assert (Hs : 0 < theta_s) by lra.
  assert (Hratio : 0 < theta_s / theta) by (apply Rdiv_lt_0_compat; assumption).
  exists (psi_e * Rpower (theta_s / theta) b), theta. split; [| split].
  - apply water_potential_ok; assumption.
  - assert (Hq : psi_e * Rpower (theta_s / theta) b / psi_e
                 = Rpower (theta_s / theta) b) by (field; lra).
    assert (Hinv : Rpower (Rpower (theta_s / theta) b) (- 1 / b)
                   = / (theta_s / theta))
      by (apply Rpower_inverse; lra).
    rewrite water_content_ok;
      [| lra | lra | rewrite Hq; apply exp_pos
       | rewrite Hq, Hinv; apply ordinary_inv; assumption].
    rewrite Hq, Hinv. do 2 f_equal. field. lra.
  - replace (theta - theta) with 0 by ring. rewrite Rabs_R0. lra.
Qed.

Lemma water_content_water_potential_witness :
  (- 1.5 < 0 /\ 0.001 <= 5 <= 1000 /\ 0 < 0.25 <= 0.5)
  /\ exists psi theta',
       water_potential 0.5 (- 1.5) 5 0.25 = Ok (Float psi)
       /\ water_content 0.5 (- 1.5) 5 psi = Ok (Float theta')
       /\ Rabs (theta' - 0.25) <= 1e-9 * 0.25.
Proof.
  split; [lra |].
  apply (water_content_water_potential 0.5 (- 1.5) 5 0.25);
    try rewrite Rpower_2_5; unfold ordinary; lra.
Defined.

Lemma Rpower_quarter_600 : Rpower (0.25 / 1) 600 <= DBL_UNDERFLOW.
Proof.
  replace (0.25 / 1) with (/ 4) by lra.
  rewrite (Rpower_nat (/ 4) 600 600) by (reflexivity || lra).
  unfold DBL_UNDERFLOW.
  rewrite pow_inv. apply Rinv_le_contravar; [apply pow_lt; lra |].
  replace 4 with (2 ^ 2) by lra. rewrite <- pow_mult.
  apply Rle_pow; [lra | lia].
Qed.

(** C4, as stated, fails: with [0 < 0.25 < 1] and [b = 600 > 0] the power
    [0.25 ** 600] underflows to zero, and the result is zero, which is not
    inside the open interval. *)
Lemma air_entry_pot_underflows :
  (0 < 0.25 < 1 /\ 0 < 600)
  /\ air_entry_pot 0.25 1 600 = Ok (Float 0)
  /\ ~ (- 33 < 0 < 0).
Proof.
  split; [lra | split; [| lra]].
  rewrite air_entry_pot_pow, pow_pos_base by lra.
  rewrite float_of_underflow.
  - cbn [bind mul]. do 2 f_equal. ring.
  - split; [left; apply exp_pos | apply Rpower_quarter_600].
Qed.

(** C4, amended.  For [0 < field_capacity < sat_water_content] and [b > 0],
    [air_entry_pot] returns a value in the closed interval from [-33] to [0];
    it is [-33 * (field_capacity / sat_water_content) ** b] when [b <= 1000]
    and the ratio and its power are of ordinary magnitude. *)
Theorem air_entry_pot_range (field_capacity swc b : R) :
  0 < field_capacity < swc -> 0 < b ->
  exists psi_e,
    air_entry_pot field_capacity swc b = Ok (Float psi_e)
    /\ - 33 <= psi_e <= 0
    /\ (b <= 1000 -> ordinary (field_capacity / swc) ->
        ordinary (Rpower (field_capacity / swc) b) ->
        psi_e = - 33 * Rpower (field_capacity / swc) b).
Proof.
  intros [Hf Hlt] Hb.
  assert (Hratio : 0 < field_capacity / swc < 1).
  { split.
    - apply Rdiv_lt_0_compat; lra.
    - apply Rmult_lt_reg_r with swc; [lra |].
      unfold Rdiv. rewrite Rmult_assoc, Rinv_l by lra. lra. }
  pose proof (Rpower_lt_1 _ _ Hratio Hb) as [Hp0 Hp1].
  destruct range_ends as [_ [_ [Ho _]]].
  destruct (float_of_below (Rpower (field_capacity / swc) b))
    as [v [Hv [Hrange Heq]]]; [lra | lra |].
  exists (- 33 * v). split; [| split].
  - rewrite air_entry_pot_pow, pow_pos_base, Hv by lra. reflexivity.
  - lra.
  - intros _ _ Hord. rewrite (Heq Hord). reflexivity.
Qed.

Lemma air_entry_pot_range_witness :
  (0 < 0.25 < 0.5 /\ 0 < 5)
  /\ exists psi_e,
       air_entry_pot 0.25 0.5 5 = Ok (Float psi_e)
       /\ - 33 <= psi_e <= 0.
Proof.
  split; [lra |].
  destruct (air_entry_pot_range 0.25 0.5 5) as [psi_e [H1 [H2 _]]];
    [lra | lra |].
  exists psi_e. split; assumption.
Defined.

(** ** Monotonicity of the retention curve *)

Section Monotone.

Variables theta_s psi_e b : R.
Hypothesis theta_s_pos : 0 < theta_s.
Hypothesis psi_e_neg : psi_e < 0.
Hypothesis b_pos : 0 < b.

Lemma ratio_increasing_power (theta1 theta2 : R) :
  0 < theta1 -> theta1 < theta2 ->
  Rpower (theta_s / theta2) b < Rpower (theta_s / theta1) b.
Proof.
  intros H1 H12. apply Rlt_Rpower_l; [assumption |]. split.
  - apply Rdiv_lt_0_compat; lra.
  - unfold Rdiv. apply Rmult_lt_compat_l; [assumption |].
    apply Rinv_lt_contravar; [nra | assumption].
Qed.

(** A wetter soil has the smaller ratio [theta_s / theta], hence the smaller
    power, hence (the air-entry potential being negative) the higher
    potential. *)
Lemma potential_increasing (theta1 theta2 : R) :
  0 < theta1 -> theta1 < theta2 ->
  psi_e * Rpower (theta_s / theta1) b < psi_e * Rpower (theta_s / theta2) b.
Proof.
  intros H1 H12. pose proof (ratio_increasing_power _ _ H1 H12) as Hp. nra.
Qed.

(** Potentials at or below the air-entry potential have a ratio
    [psi / psi_e] of at least one, which falls as [psi] rises. *)
Lemma ratio_decreasing (psi1 psi2 : R) :
  psi1 < psi2 -> psi2 <= psi_e -> 1 <= psi2 / psi_e < psi1 / psi_e.
Proof.
  intros H12 H2. unfold Rdiv.
  assert (Hi : / psi_e < 0) by (apply Rinv_lt_0_compat; assumption).
  assert (He : psi_e * / psi_e = 1) by (apply Rinv_r; lra).
  split; nra.
Qed.

Lemma inverse_power_increasing (psi1 psi2 : R) :
  psi1 < psi2 -> psi2 <= psi_e ->
  Rpower (psi1 / psi_e) (- 1 / b) < Rpower (psi2 / psi_e) (- 1 / b) <= 1.
Proof.
  intros H12 H2.
  destruct (ratio_decreasing _ _ H12 H2) as [Hone Hlt].
  replace (- 1 / b) with (- (1 / b)) by (field; lra).
  rewrite !Rpower_Ropp.
  assert (Hexp : 0 < 1 / b) by (apply Rdiv_lt_0_compat; lra).
  assert (Hp : Rpower (psi2 / psi_e) (1 / b) < Rpower (psi1 / psi_e) (1 / b))
    by (apply Rlt_Rpower_l; [assumption | lra]).
  assert (Hge : 1 <= Rpower (psi2 / psi_e) (1 / b))
    by (apply Rpower_ge_1_iff; lra).
  split.
  - apply Rinv_lt_contravar; [nra | assumption].
  - apply Rle_trans with (/ 1); [apply Rinv_le_contravar; lra |].
    rewrite Rinv_1. lra.
Qed.

End Monotone.

(** C5, as stated, fails: between the water contents [0.25] and [0.5] of the
    bundle [(0.5, -1.5, 5)] the potential rises from [-48] to [-1.5]. *)
Lemma water_potential_not_decreasing :
  0.25 < 0.5
  /\ water_potential 0.5 (- 1.5) 5 0.25 = Ok (Float (- 48))
  /\ water_potential 0.5 (- 1.5) 5 0.5 = Ok (Float (- 1.5))
  /\ ~ (- 1.5 < - 48).
Proof.
  split; [lra | split; [| split; [| lra]]].
  - rewrite water_potential_ok;
      [| lra | lra | rewrite Rpower_2_5; unfold ordinary; lra].
    rewrite Rpower_2_5. do 2 f_equal. lra.
  - rewrite water_potential_pow by lra.
    replace (0.5 / 0.5) with 1 by lra.
    rewrite pow_one_base. cbn [bind mul]. do 2 f_equal. lra.
Qed.

(** C5, amended.  For a bundle with [psi_e < 0] and [0.001 <= b <= 1000]
    whose quantities are of ordinary magnitude, [water_potential] is strictly
    increasing in the water content over [(0, theta_s]] (a drier soil has
    the more negative potential) and [water_content] is strictly increasing
    in the potential over [psi <= psi_e], in both cases across any two
    arguments that differ by at least one part in [1e9]. *)
Theorem retention_curve_monotone (theta_s psi_e b : R) :
  ordinary theta_s -> ordinary (- psi_e) -> 0.001 <= b <= 1000 ->
  (forall theta1 theta2,
     ordinary theta1 -> theta1 * (1 + 1e-9) <= theta2 -> theta2 <= theta_s ->
     ordinary (theta_s / theta1) -> ordinary (Rpower (theta_s / theta1) b) ->
     ordinary (- psi_e * Rpower (theta_s / theta1) b) ->
     exists psi1 psi2,
       water_potential theta_s psi_e b theta1 = Ok (Float psi1)
       /\ water_potential theta_s psi_e b theta2 = Ok (Float psi2)
       /\ psi1 < psi2)
  /\ (forall psi1 psi2,
        ordinary (- psi1) -> psi1 <= psi2 * (1 + 1e-9) -> psi2 <= psi_e ->
        ordinary (psi1 / psi_e) ->
        ordinary (Rpower (psi1 / psi_e) (- 1 / b)) ->
        ordinary (theta_s * Rpower (psi1 / psi_e) (- 1 / b)) ->
        exists theta1 theta2,
          water_content theta_s psi_e b psi1 = Ok (Float theta1)
          /\ water_content theta_s psi_e b psi2 = Ok (Float theta2)
          /\ theta1 < theta2).
Proof.
  intros Hts Hpe [Hb _].
  assert (Hs : 0 < theta_s) by (apply ordinary_pos; assumption).
  assert (He : psi_e < 0) by (apply ordinary_pos in Hpe; lra).
  assert (Hb0 : 0 < b) by lra.
  split.
  - intros theta1 theta2 Ht1 Hsep H2 _ Hp1 _.
    assert (H1 : 0 < theta1) by (apply ordinary_pos; assumption).
    assert (H12 : theta1 < theta2) by nra.
    pose proof (ratio_increasing_power theta_s b Hs Hb0 _ _ H1 H12) as Hlt.
    assert (Hr2 : 0 < theta_s / theta2) by (apply Rdiv_lt_0_compat; lra).
    assert (Hge : 1 <= Rpower (theta_s / theta2) b).
    { apply Rpower_ge_1_iff; [assumption | assumption |].
      apply Rmult_le_reg_r with theta2; [lra |].
      unfold Rdiv. rewrite Rmult_assoc, Rinv_l by lra. lra. }
    assert (Hp2 : ordinary (Rpower (theta_s / theta2) b))
      by (apply (ordinary_between 1 _ _ ordinary_1 Hp1); lra).
    do 2 eexists. split; [| split].
    + apply water_potential_ok; assumption.
    + apply water_potential_ok; [assumption | lra | assumption].
    + apply potential_increasing; assumption.
  - intros psi1 psi2 Hm1 Hsep H2 _ Hq1 _.
    assert (Hn2 : psi2 < 0) by lra.
    assert (H12 : psi1 < psi2) by nra.
    destruct (ratio_decreasing psi_e He _ _ H12 H2) as [Hone Hlt].
    destruct (inverse_power_increasing psi_e b He Hb0 _ _ H12 H2) as [Hq Hq2].
    assert (Hq2o : ordinary (Rpower (psi2 / psi_e) (- 1 / b)))
      by (apply (ordinary_between _ _ 1 Hq1 ordinary_1); lra).
    do 2 eexists. split; [| split].
    + apply water_content_ok; [lra | lra | lra | assumption].
    + apply water_content_ok; [lra | lra | lra | assumption].
    + apply Rmult_lt_compat_l; assumption.
Qed.

Lemma Rpower_inv_32 : Rpower (- 48 / - 1.5) (- 1 / 5) = / 2.
Proof.
  replace (- 48 / - 1.5) with (Rpower 2 5).
  - rewrite Rpower_inverse by lra. reflexivity.
  - rewrite (Rpower_nat 2 5 5) by (reflexivity || lra). lra.
Qed.

Lemma retention_curve_monotone_witness :
  (ordinary 0.5 /\ ordinary (- - 1.5) /\ 0.001 <= 5 <= 1000)
  /\ (exists psi1 psi2,
        water_potential 0.5 (- 1.5) 5 0.25 = Ok (Float psi1)
        /\ water_potential 0.5 (- 1.5) 5 0.5 = Ok (Float psi2)
        /\ psi1 < psi2)
  /\ (exists theta1 theta2,
        water_content 0.5 (- 1.5) 5 (- 48) = Ok (Float theta1)
        /\ water_content 0.5 (- 1.5) 5 (- 1.5) = Ok (Float theta2)
        /\ theta1 < theta2).
Proof.
  assert (H : ordinary 0.5 /\ ordinary (- - 1.5) /\ 0.001 <= 5 <= 1000)
    by (unfold ordinary; lra).
  split; [exact H |].
  destruct H as [Hs [He Hb]].
  destruct (retention_curve_monotone 0.5 (- 1.5) 5 Hs He Hb) as [Hwp Hwc].
  split.
  - apply Hwp; try rewrite Rpower_2_5; unfold ordinary; lra.
  - apply Hwc; try rewrite Rpower_inv_32; unfold ordinary; lra.
Defined.

(** ** The shape parameter *)

Lemma b_value_ok (fc wp : R) :
  0 < fc -> 0 < wp -> fc <> wp ->
  b_value fc wp = Ok ((ln 1500 - ln 33) / (ln fc - ln wp)).
Proof.
  intros Hf Hw Hne. unfold b_value.
  rewrite !log_ok by lra. cbn [bind].
  apply truediv_ok. intros E.
  apply Hne, ln_inv; [assumption | assumption | lra].
Qed.

Lemma ln_1500_33 : 0 < ln 1500 - ln 33.
Proof.
  assert (ln 33 < ln 1500) by (apply ln_increasing; lra). lra.
Qed.

(** ** Saturation and bulk density *)

(** C8, as stated, fails: [sat_water_content] has no guard, and a bulk
    density of [3], above the particle density, returns a (negative) value
    instead of failing. *)
Lemma sat_water_content_unguarded :
  sat_water_content 3 = Ok (1 - 3 / 2.65)
  /\ ~ fails_with (sat_water_content 3) DomainError.
Proof.
  split; [apply sat_water_content_ok |].
  intros [e [He _]]. rewrite sat_water_content_ok in He. discriminate He.
Qed.

(** In binary64 a bulk density inside [(0, 2.65)] can give exactly one:
    [1e-17 / 2.65] is absorbed by the subtraction from [1]. *)
Example sat_water_content_reaches_one :
  PrimFloat.eqb (B64.sat_water_content 1e-17) 1 = true.
Proof. vm_compute. reflexivity. Qed.

(** C8, amended.  [sat_water_content] returns [1 - bulk_density / 2.65] for
    every bulk density and never fails; the value lies in the closed interval
    [[0, 1]] for a bulk density in [[0, 2.65]], is at most [0] for a bulk
    density of at least [2.65], and at least [1] for a bulk density of at
    most [0]. *)
Theorem sat_water_content_range (bulk_density : R) :
  sat_water_content bulk_density = Ok (1 - bulk_density / 2.65)
  /\ (0 <= bulk_density <= 2.65 -> 0 <= 1 - bulk_density / 2.65 <= 1)
  /\ (2.65 <= bulk_density -> 1 - bulk_density / 2.65 <= 0)
  /\ (bulk_density <= 0 -> 1 <= 1 - bulk_density / 2.65).
Proof.
  split; [apply sat_water_content_ok |]. repeat split; intros; lra.
Qed.

Lemma sat_water_content_range_witness :
  sat_water_content 1.3 = Ok (1 - 1.3 / 2.65)
  /\ 0 <= 1 - 1.3 / 2.65 <= 1
  /\ 1 - 3 / 2.65 <= 0
  /\ 1 <= 1 - (- 1) / 2.65.
Proof.
  split; [| split; [| split]].
  - apply (proj1 (sat_water_content_range 1.3)).
  - apply (proj1 (proj2 (sat_water_content_range 1.3))). lra.
  - apply (proj1 (proj2 (proj2 (sat_water_content_range 3)))). lra.
  - apply (proj2 (proj2 (proj2 (sat_water_content_range (- 1))))). lra.
Defined.

(** C6, as stated, fails: in binary64 the two formulations do not return
    exactly the same value.  For the texture [(0, 0, 0)] the saturated water
    content computed inside [get_bulk_density] is 0.35347348299999998, while
    [sat_water_content] of the returned bulk density is
    0.35347348299999992, and [==] on the two is false. *)
Lemma sat_water_content_not_bit_exact :
  B64.sat_water_content_est 0 0 0 = 0.35347348299999998%float
  /\ B64.sat_water_content (B64.get_bulk_density 0 0 0)
     = 0.35347348299999992%float
  /\ PrimFloat.eqb (B64.sat_water_content (B64.get_bulk_density 0 0 0))
                   (B64.sat_water_content_est 0 0 0) = false.
Proof. vm_compute. repeat split. Qed.

(** C6, amended.  For every texture with [clay] and [sand] in [[0, 1]],
    [clay + sand <= 1] and [0 <= organic_matter <= 100], applying
    [sat_water_content] to the bulk density returned by [get_bulk_density]
    gives back the saturated water content
    [0.043 + field_capacity + x2 - 0.097 * sand] that [get_bulk_density]
    computed on the way, within an absolute tolerance of [1e-12]: the two are
    the same real number, [1 - (1 - S) * 2.65 / 2.65 = S], but not the same
    float. *)
Theorem sat_water_content_get_bulk_density (clay sand organic_matter : R) :
  0 <= clay <= 1 -> 0 <= sand <= 1 -> clay + sand <= 1 ->
  0 <= organic_matter <= 100 ->
  let x1 :=
    0.078
    + 0.278 * sand
    + 0.034 * clay
    + 0.022 * organic_matter
    - 0.018 * sand * organic_matter
    - 0.027 * clay * organic_matter
    - 0.584 * sand * clay in
  let x2 := - 0.107 + 1.636 * x1 in
  let field_capacity := vol_water_content_33_j_kg clay sand organic_matter in
  exists s,
    sat_water_content (get_bulk_density clay sand organic_matter) = Ok s
    /\ Rabs (s - (0.043 + field_capacity + x2 - 0.097 * sand)) <= 1e-12.
Proof.
  intros _ _ _ _ x1 x2 field_capacity.
  exists (0.043 + field_capacity + x2 - 0.097 * sand). split.
  - rewrite sat_water_content_ok.
    unfold get_bulk_density, sat_water_content_est, MIN_SOIL_PARTICLE_DENS.
    fold x1 x2 field_capacity. f_equal. lra.
  - match goal with |- Rabs (?a - ?a) <= _ =>
      replace (a - a) with 0 by ring end.
    rewrite Rabs_R0. lra.
Qed.

Lemma sat_water_content_get_bulk_density_witness :
  (0 <= 0.03 <= 1 /\ 0 <= 0.92 <= 1 /\ 0.03 + 0.92 <= 1 /\ 0 <= 1.906 <= 100)
  /\ exists s,
       sat_water_content (get_bulk_density 0.03 0.92 1.906) = Ok s
       /\ Rabs (s - sat_water_content_est 0.03 0.92 1.906) <= 1e-12.
Proof.
  split; [lra |].
  apply (sat_water_content_get_bulk_density 0.03 0.92 1.906); lra.
Defined.

(** C9.  For clay 0.03, sand 0.92 and organic matter 1.906,
    [get_bulk_density], which is [(1 - S) * 2.65] for the saturated water
    content [S] built from the texture regression and
    [vol_water_content_33_j_kg], is within 0.01 of 1.43. *)
Theorem get_bulk_density_reference :
  get_bulk_density 0.03 0.92 1.906
  = (1 - sat_water_content_est 0.03 0.92 1.906) * 2.65
  /\ Rabs (get_bulk_density 0.03 0.92 1.906 - 1.43) <= 0.01.
Proof.
  split; [reflexivity |].
  unfold get_bulk_density, sat_water_content_est, vol_water_content_33_j_kg,
    MIN_SOIL_PARTICLE_DENS. cbv zeta.
  apply Rabs_le. lra.
Qed.

(** ** Ordering of the moisture points *)

Lemma b_value_sign (fc wp : R) :
  0 < fc -> 0 < wp -> fc <> wp ->
  exists b, b_value fc wp = Ok b /\ (wp < fc -> 0 < b) /\ (fc < wp -> b < 0).
Proof.
  intros Hf Hw Hne. eexists. split; [apply b_value_ok; assumption |].
  pose proof ln_1500_33 as Hnum. unfold Rdiv. split; intros Hlt.
  - assert (0 < ln fc - ln wp)
      by (assert (ln wp < ln fc) by (apply ln_increasing; lra); lra).
    apply Rmult_lt_0_compat; [assumption | apply Rinv_0_lt_compat; assumption].
  - assert (ln fc - ln wp < 0)
      by (assert (ln fc < ln wp) by (apply ln_increasing; lra); lra).
    assert (/ (ln fc - ln wp) < 0) by (apply Rinv_lt_0_compat; assumption).
    nra.
Qed.

Section Calibration.

Variables clay sand organic_matter : R.
Hypothesis clay_range : 0.03 <= clay <= 0.5.
Hypothesis sand_nonneg : 0 <= sand.
Hypothesis fractions : clay + sand <= 1.
Hypothesis organic_matter_range : 0 <= organic_matter <= 8.

Lemma wilting_point_pos : 0 < vol_water_content_1500_jkg clay sand organic_matter.
Proof using All. unfold vol_water_content_1500_jkg. cbv zeta. nra. Qed.

(** The square of the regression term is bounded below by its tangent at
    [0.15], which reduces the comparison to a bilinear inequality. *)
Lemma wilting_point_lt_field_capacity :
  vol_water_content_1500_jkg clay sand organic_matter
  < vol_water_content_33_j_kg clay sand organic_matter.
Proof using All.
  unfold vol_water_content_1500_jkg, vol_water_content_33_j_kg. cbv zeta.
  match goal with |- context [ ?t ^ 2 ] => set (x := t) end.
  pose proof (pow2_ge_0 (x - 0.15)) as Hsq.
  assert (Hlin :
    0 < 0.005 - 1.283 * 0.15 ^ 2 + (0.636 + 2.566 * 0.15) * x
        - 1.14 * (0.031 - 0.024 * sand + 0.487 * clay + 0.006 * organic_matter
                  + 0.005 * sand * organic_matter
                  - 0.013 * clay * organic_matter + 0.068 * sand * clay))
    by (unfold x; nra).
  nra.
Qed.

Lemma field_capacity_lt_saturation :
  vol_water_content_33_j_kg clay sand organic_matter
  < sat_water_content_est clay sand organic_matter.
Proof using All.
  unfold sat_water_content_est. cbv zeta.
  generalize (vol_water_content_33_j_kg clay sand organic_matter). intros fc.
  nra.
Qed.

(** On the calibration range the regression term lies in [[0, 0.5]], so its
    square is at most half of it. *)
Lemma saturation_lt_1 : sat_water_content_est clay sand organic_matter < 1.
Proof using All.
  unfold sat_water_content_est, vol_water_content_33_j_kg. cbv zeta.
  match goal with |- context [ ?t ^ 2 ] => set (x := t) end.
  assert (Hx : 0 <= x <= 0.5) by (unfold x; split; nra).
  assert (Hsq : x ^ 2 <= 0.5 * x) by nra.
  assert (Hlin :
    - 0.015 + 0.636 * x + 1.283 * (0.5 * x) + 0.043
    + (- 0.107 + 1.636 * (0.078 + 0.278 * sand + 0.034 * clay
                          + 0.022 * organic_matter
                          - 0.018 * sand * organic_matter
                          - 0.027 * clay * organic_matter
                          - 0.584 * sand * clay))
    - 0.097 * sand < 1)
    by (unfold x; nra).
  nra.
Qed.

End Calibration.

(** C2, as stated, fails: for pure clay with 2 percent organic matter, a valid
    texture, the wilting-point regression exceeds the field-capacity
    regression, and the shape parameter computed from them is negative. *)
Lemma moisture_ordering_fails_pure_clay :
  (0 <= 1 <= 1 /\ 0 <= 0 <= 1 /\ 1 + 0 <= 1 /\ 0 <= 2)
  /\ vol_water_content_33_j_kg 1 0 2 < vol_water_content_1500_jkg 1 0 2
  /\ exists b,
       b_value (vol_water_content_33_j_kg 1 0 2)
               (vol_water_content_1500_jkg 1 0 2) = Ok b
       /\ b < 0.
Proof.
  assert (Hf : 0 < vol_water_content_33_j_kg 1 0 2)
    by (unfold vol_water_content_33_j_kg; cbv zeta; lra).
  assert (Hw : 0 < vol_water_content_1500_jkg 1 0 2)
    by (unfold vol_water_content_1500_jkg; cbv zeta; lra).
  assert (Hlt : vol_water_content_33_j_kg 1 0 2 < vol_water_content_1500_jkg 1 0 2)
    by (unfold vol_water_content_33_j_kg, vol_water_content_1500_jkg;
        cbv zeta; lra).
  split; [lra | split; [exact Hlt |]].
  destruct (b_value_sign _ _ Hf Hw) as [b [Hb [_ Hneg]]]; [lra |].
  exists b. split; [exact Hb | apply Hneg, Hlt].
Qed.

(** C2, amended.  For every texture with [0.03 <= clay <= 0.5], [sand >= 0],
    [clay + sand <= 1] and [0 <= organic_matter <= 8], the wilting point is
    strictly positive, the derived quantities are ordered
    [vol_water_content_1500_jkg < vol_water_content_33_j_kg
     < sat_water_content (get_bulk_density ...) < 1],
    and [b_value] of the two moisture contents returns a strictly positive
    number. *)
Theorem calibrated_texture_ordering (clay sand organic_matter : R) :
  0.03 <= clay <= 0.5 -> 0 <= sand -> clay + sand <= 1 ->
  0 <= organic_matter <= 8 ->
  let wp := vol_water_content_1500_jkg clay sand organic_matter in
  let fc := vol_water_content_33_j_kg clay sand organic_matter in
  0 < wp < fc
  /\ (exists s,
        sat_water_content (get_bulk_density clay sand organic_matter) = Ok s
        /\ fc < s < 1)
  /\ (exists b, b_value fc wp = Ok b /\ 0 < b).
Proof.
  intros Hc Hs Hcs Ho wp fc.
  pose proof (wilting_point_pos _ _ _ Hc Hs Hcs Ho) as Hwp.
  pose proof (wilting_point_lt_field_capacity _ _ _ Hc Hs Hcs Ho) as Hlt.
  fold wp in Hwp, Hlt. fold fc in Hlt.
  split; [split; assumption | split].
  - exists (sat_water_content_est clay sand organic_matter). split.
    + rewrite sat_water_content_ok. f_equal.
      unfold get_bulk_density, MIN_SOIL_PARTICLE_DENS. lra.
    + split.
      * apply field_capacity_lt_saturation; assumption.
      * apply saturation_lt_1; assumption.
  - destruct (b_value_sign fc wp) as [b [Hb [Hpos _]]]; [lra | lra | lra |].
    exists b. split; [exact Hb | apply Hpos, Hlt].
Qed.

Lemma calibrated_texture_ordering_witness :
  (0.03 <= 0.03 <= 0.5 /\ 0 <= 0.92 /\ 0.03 + 0.92 <= 1 /\ 0 <= 1.906 <= 8)
  /\ 0 < vol_water_content_1500_jkg 0.03 0.92 1.906
       < vol_water_content_33_j_kg 0.03 0.92 1.906
  /\ (exists s,
        sat_water_content (get_bulk_density 0.03 0.92 1.906) = Ok s
        /\ vol_water_content_33_j_kg 0.03 0.92 1.906 < s < 1)
  /\ (exists b,
        b_value (vol_water_content_33_j_kg 0.03 0.92 1.906)
                (vol_water_content_1500_jkg 0.03 0.92 1.906) = Ok b
        /\ 0 < b).
Proof.
  split; [lra |].
  apply (calibrated_texture_ordering 0.03 0.92 1.906); lra.
Defined.


(** ** Further properties of the retention curve *)

Lemma ratio_pos (psi psi_e : R) : psi < 0 -> psi_e < 0 -> 0 < psi / psi_e.
Proof.
  intros Hp He. unfold Rdiv.
  assert (/ psi_e < 0) by (apply Rinv_lt_0_compat; assumption). nra.
Qed.

Lemma ratio_ge_1_iff (psi psi_e : R) :
  psi_e < 0 -> (1 <= psi / psi_e <-> psi <= psi_e).
Proof.
  intros He. unfold Rdiv.
  assert (Hi : / psi_e < 0) by (apply Rinv_lt_0_compat; assumption).
  assert (Hone : psi_e * / psi_e = 1) by (apply Rinv_r; lra).
  split; intros H.
  - destruct (Rle_lt_dec psi psi_e) as [Hle | Hlt]; [assumption | nra].
  - nra.
Qed.

Lemma quotient_ge_1_iff (x y : R) : 0 < y -> (1 <= x / y <-> y <= x).
Proof.
  intros Hy. unfold Rdiv.
  assert (Hi : 0 < / y) by (apply Rinv_0_lt_compat; assumption).
  assert (Hone : y * / y = 1) by (apply Rinv_r; lra).
  split; intros H.
  - destruct (Rle_lt_dec y x) as [Hle | Hlt]; [assumption | nra].
  - nra.
Qed.

Lemma Rpower_le_1 (x y : R) : 0 < x <= 1 -> 0 < y -> Rpower x y <= 1.
Proof.
  intros [Hx0 Hx1] Hy. rewrite <- (Rpower_one_base y).
  apply Rle_Rpower_l; lra.
Qed.

(** X1.  At the air-entry potential itself [water_content] returns the
    saturated water content, for every saturated water content and every
    non-zero air-entry potential and shape parameter. *)
Theorem water_content_at_air_entry (theta_s psi_e b : R) :
  psi_e <> 0 -> b <> 0 ->
  water_content theta_s psi_e b psi_e = Ok (Float theta_s).
Proof.
  intros He Hb. rewrite water_content_pow by assumption.
  replace (psi_e / psi_e) with 1 by (field; assumption).
  rewrite pow_one_base. cbn [bind mul]. do 2 f_equal. ring.
Qed.

Lemma water_content_at_air_entry_witness :
  (- 1.5 <> 0 /\ 5 <> 0)
  /\ water_content 0.5 (- 1.5) 5 (- 1.5) = Ok (Float 0.5).
Proof.
  split; [lra | apply (water_content_at_air_entry 0.5 (- 1.5) 5); lra].
Defined.

(** X2.  The round trip in the other direction, up to tolerance: for
    [psi_e < 0], [0.01 <= b <= 100] and a negative potential, all quantities
    being of ordinary magnitude, [water_content] returns a water content, and
    [water_potential] applied to it returns the potential within a relative
    tolerance of [1e-9]. *)
Theorem water_potential_water_content (theta_s psi_e b psi : R) :
  psi_e < 0 -> psi < 0 -> 0.01 <= b <= 100 ->
  ordinary theta_s -> ordinary (- psi_e) -> ordinary (- psi) ->
  ordinary (psi / psi_e) ->
  ordinary (Rpower (psi / psi_e) (- 1 / b)) ->
  ordinary (theta_s * Rpower (psi / psi_e) (- 1 / b)) ->
  exists theta psi',
    water_content theta_s psi_e b psi = Ok (Float theta)
    /\ water_potential theta_s psi_e b theta = Ok (Float psi')
    /\ Rabs (psi' - psi) <= 1e-9 * - psi.
Proof.
  intros He Hp [Hb _] Hts _ _ Hr Hq _.
  assert (Hs : 0 < theta_s) by (apply ordinary_pos; assumption).
  assert (Hratio : 0 < psi / psi_e) by (apply ordinary_pos; assumption).
  set (q := Rpower (psi / psi_e) (- 1 / b)) in *.
  assert (Hpos : 0 < q) by apply exp_pos.
  assert (Hback : Rpower (theta_s / (theta_s * q)) b = psi / psi_e).
  { replace (theta_s / (theta_s * q)) with (/ q) by (field; lra).
    unfold q. rewrite <- Rpower_Ropp, Rpower_mult.
    replace (- (- 1 / b) * b) with 1 by (field; lra).
    apply Rpower_1. assumption. }
  exists (theta_s * q), psi. split; [| split].
  - apply water_content_ok; [lra | lra | assumption | assumption].
  - rewrite water_potential_ok; [| assumption | nra | rewrite Hback; assumption].
    rewrite Hback. do 2 f_equal. field. lra.
  - replace (psi - psi) with 0 by ring. rewrite Rabs_R0. lra.
Qed.

Lemma water_potential_water_content_witness :
  (- 1.5 < 0 /\ - 48 < 0 /\ 0.01 <= 5 <= 100)
  /\ exists theta psi',
       water_content 0.5 (- 1.5) 5 (- 48) = Ok (Float theta)
       /\ water_potential 0.5 (- 1.5) 5 theta = Ok (Float psi')
       /\ Rabs (psi' - - 48) <= 1e-9 * - - 48.
Proof.
  split; [lra |].
  apply (water_potential_water_content 0.5 (- 1.5) 5 (- 48));
    try rewrite Rpower_inv_32; unfold ordinary; lra.
Defined.

(** X3.  For [theta_s > 0], [psi_e < 0], [0.001 <= b <= 1000] and a negative
    potential, the ratio and its power being of ordinary magnitude,
    [water_content] returns a non-negative water content, which is at most
    [theta_s] when the potential is at or below the air-entry potential and
    at least [theta_s] when it is at or above it: nothing clamps the result
    at saturation. *)
Theorem water_content_range (theta_s psi_e b psi : R) :
  0 < theta_s -> psi_e < 0 -> 0.001 <= b <= 1000 -> psi < 0 ->
  ordinary (psi / psi_e) -> ordinary (Rpower (psi / psi_e) (- 1 / b)) ->
  exists theta,
    water_content theta_s psi_e b psi = Ok (Float theta)
    /\ 0 <= theta
    /\ (psi <= psi_e -> theta <= theta_s)
    /\ (psi_e <= psi -> theta_s <= theta).
Proof.
  intros Hs He [Hb _] Hp _ Hq.
  pose proof (ratio_pos _ _ Hp He) as Hr.
  exists (theta_s * Rpower (psi / psi_e) (- 1 / b)).
  split; [apply water_content_ok; try assumption; lra |].
  revert Hq. replace (- 1 / b) with (- (1 / b)) by (field; lra).
  rewrite Rpower_Ropp. intros _.
  set (p := Rpower (psi / psi_e) (1 / b)).
  assert (Hpos : 0 < p) by apply exp_pos.
  assert (Hinv : 0 < / p) by (apply Rinv_0_lt_compat; assumption).
  assert (Hone : p * / p = 1) by (apply Rinv_r; lra).
  assert (Hexp : 0 < 1 / b) by (apply Rdiv_lt_0_compat; lra).
  split; [nra | split].
  - intros Hle. apply (ratio_ge_1_iff psi psi_e He) in Hle.
    apply (Rpower_ge_1_iff (psi / psi_e) (1 / b) Hr Hexp) in Hle.
    fold p in Hle. nra.
  - intros Hge.
    assert (Hr1 : psi / psi_e <= 1).
    { destruct (Rle_lt_dec (psi / psi_e) 1) as [H | H]; [assumption |].
      assert (H1 : 1 <= psi / psi_e) by lra.
      apply (ratio_ge_1_iff psi psi_e He) in H1.
      assert (E : psi = psi_e) by lra. rewrite E in H.
      replace (psi_e / psi_e) with 1 in H by (field; lra). lra. }
    assert (Hp1 : p <= 1) by (apply Rpower_le_1; lra).
    nra.
Qed.

Lemma water_content_range_witness :
  (0 < 0.5 /\ - 1.5 < 0 /\ 0.001 <= 5 <= 1000 /\ - 48 < 0)
  /\ exists theta,
       water_content 0.5 (- 1.5) 5 (- 48) = Ok (Float theta)
       /\ 0 <= theta
       /\ (- 48 <= - 1.5 -> theta <= 0.5)
       /\ (- 1.5 <= - 48 -> 0.5 <= theta).
Proof.
  split; [lra |].
  apply (water_content_range 0.5 (- 1.5) 5 (- 48));
    try rewrite Rpower_inv_32; unfold ordinary; lra.
Defined.

(** X4.  For [theta_s > 0], [psi_e < 0], [0.001 <= b <= 1000] and a strictly
    positive water content, the ratio and its power being of ordinary
    magnitude, [water_potential] returns a potential that is at most zero,
    at or below the air-entry potential when the water content is at most
    [theta_s], and at or above it when the water content is at least
    [theta_s]: a water content above saturation is accepted. *)
Theorem water_potential_range (theta_s psi_e b theta : R) :
  0 < theta_s -> psi_e < 0 -> 0.001 <= b <= 1000 -> 0 < theta ->
  ordinary (theta_s / theta) -> ordinary (Rpower (theta_s / theta) b) ->
  exists psi,
    water_potential theta_s psi_e b theta = Ok (Float psi)
    /\ psi <= 0
    /\ (theta <= theta_s -> psi <= psi_e)
    /\ (theta_s <= theta -> psi_e <= psi).
Proof.
  intros Hs He [Hb _] Ht _ Hp.
  assert (Hb0 : 0 < b) by lra.
  exists (psi_e * Rpower (theta_s / theta) b).
  split; [apply water_potential_ok; assumption |].
  assert (Hr : 0 < theta_s / theta) by (apply Rdiv_lt_0_compat; assumption).
  set (p := Rpower (theta_s / theta) b) in *.
  assert (Hpos : 0 < p) by apply exp_pos.
  split; [nra | split].
  - intros Hle. apply (quotient_ge_1_iff theta_s theta Ht) in Hle.
    apply (Rpower_ge_1_iff _ b Hr Hb0) in Hle. fold p in Hle. nra.
  - intros Hge.
    assert (Hr1 : theta_s / theta <= 1).
    { destruct (Rle_lt_dec (theta_s / theta) 1) as [H | H]; [assumption |].
      assert (H1 : 1 <= theta_s / theta) by lra.
      apply (quotient_ge_1_iff theta_s theta Ht) in H1.
      assert (E : theta = theta_s) by lra. rewrite E in H.
      replace (theta_s / theta_s) with 1 in H by (field; lra). lra. }
    assert (Hp1 : p <= 1) by (apply Rpower_le_1; lra).
    nra.
Qed.

Lemma Rpower_08_4 : Rpower (0.20 / 0.25) 4 = 0.4096.
Proof.
  replace (0.20 / 0.25) with 0.8 by lra.
  rewrite (Rpower_nat 0.8 4 4) by (reflexivity || lra). lra.
Qed.

Lemma water_potential_range_witness :
  (0 < 0.20 /\ - 1.0 < 0 /\ 0.001 <= 4 <= 1000 /\ 0 < 0.25)
  /\ exists psi,
       water_potential 0.20 (- 1.0) 4 0.25 = Ok (Float psi)
       /\ psi <= 0
       /\ (0.25 <= 0.20 -> psi <= - 1.0)
       /\ (0.20 <= 0.25 -> - 1.0 <= psi).
Proof.
  split; [lra |].
  apply (water_potential_range 0.20 (- 1.0) 4 0.25);
    try rewrite Rpower_08_4; unfold ordinary; lra.
Defined.

(** ** Where the unguarded functions fail *)

Lemma pow_zero_neg (y : R) : y < 0 -> pow 0 y = Raise ZeroDivisionError.
Proof.
  intros Hy. unfold pow.
  destruct (total_order_T 0 0) as [[F | _] | F]; [lra | | lra].
  destruct (total_order_T 0 y) as [[P | E] | _]; [lra | lra | reflexivity].
Qed.

Lemma is_integer_fraction (y : R) : - 1 < y < 0 -> is_integer y = false.
Proof.
  intros [Hlo Hhi]. unfold is_integer.
  destruct (Req_dec_T y (IZR (Int_part y))) as [E | _]; [| reflexivity].
  rewrite E in Hlo, Hhi.
  apply lt_IZR in Hlo. apply lt_IZR in Hhi.
  exfalso. revert Hlo Hhi. generalize (Int_part y). intros z Hlo Hhi. lia.
Qed.

(** A base of ordinary magnitude raised to an exponent between [-1] and [0]
    stays below the overflow threshold. *)
Lemma Rpower_fraction_bounded (x y : R) :
  ordinary x -> - 1 < y < 0 -> Rpower x y < DBL_OVERFLOW.
Proof.
  intros Hx [Hlo Hhi]. pose proof (ordinary_pos _ Hx) as Hpos.
  destruct range_ends as [_ [_ [Ho _]]].
  apply Rle_lt_trans with 1e300; [| assumption].
  destruct (Rle_lt_dec 1 x) as [H1 | H1].
  - apply Rle_trans with 1; [| lra].
    replace y with (- - y) by ring. rewrite Rpower_Ropp.
    apply Rle_trans with (/ 1); [| rewrite Rinv_1; lra].
    apply Rinv_le_contravar; [lra |].
    apply Rpower_ge_1_iff; lra.
  - destruct (ordinary_inv _ Hx) as [_ Hinv].
    apply Rle_trans with (/ x); [| assumption].
    rewrite <- (Rpower_1 (/ x)) by (apply Rinv_0_lt_compat; assumption).
    replace (Rpower x y) with (Rpower (/ x) (- y)).
    + apply Rle_Rpower; [| lra].
      rewrite <- Rinv_1. apply Rinv_le_contravar; lra.
    + unfold Rpower. rewrite ln_Rinv by assumption. f_equal. ring.
Qed.

(** X5.  [water_content] checks none of its arguments.  It raises
    [ZeroDivisionError] when the air-entry potential is zero, when the shape
    parameter is zero, and when the potential is zero with a positive shape
    parameter ([0.0] raised to a negative power); when the two potentials
    have the same sign it returns [theta_s * (psi / psi_e) ** (-1 / b)] for
    every saturated water content, zero and negative ones included
    (quantities of ordinary magnitude). *)
Theorem water_content_failures (theta_s psi_e b psi : R) :
  (psi_e = 0 -> water_content theta_s psi_e b psi = Raise ZeroDivisionError)
  /\ (psi_e <> 0 -> b = 0 ->
      water_content theta_s psi_e b psi = Raise ZeroDivisionError)
  /\ (ordinary (Rabs psi_e) -> ordinary b -> psi = 0 ->
      water_content theta_s psi_e b psi = Raise ZeroDivisionError)
  /\ (ordinary (Rabs psi_e) -> 0.001 <= Rabs b <= 1000 ->
      ordinary (psi / psi_e) -> ordinary (Rpower (psi / psi_e) (- 1 / b)) ->
      water_content theta_s psi_e b psi
      = Ok (Float (theta_s * Rpower (psi / psi_e) (- 1 / b)))).
Proof.
  assert (Hne : forall x, ordinary (Rabs x) -> x <> 0).
  { intros x Hx E. subst x. rewrite Rabs_R0 in Hx.
    apply ordinary_pos in Hx. lra. }
  split; [| split; [| split]].
  - intros ->. unfold water_content. rewrite truediv_zero. reflexivity.
  - intros He ->. unfold water_content.
    rewrite (truediv_ok psi psi_e) by assumption. cbn [bind].
    rewrite truediv_zero. reflexivity.
  - intros He Hb ->. pose proof (ordinary_pos _ Hb) as Hb0.
    rewrite water_content_pow by (auto; lra).
    replace (0 / psi_e) with 0 by (field; auto).
    rewrite pow_zero_neg; [reflexivity |].
    assert (0 < / b) by (apply Rinv_0_lt_compat; assumption).
    unfold Rdiv. lra.
  - intros He Hb Hr Hq. apply water_content_ok; auto.
    + intros E. subst b. rewrite Rabs_R0 in Hb. lra.
    + apply ordinary_pos. assumption.
Qed.

Lemma water_content_failures_witness :
  water_content 0.5 0 5 (- 48) = Raise ZeroDivisionError
  /\ water_content 0.5 (- 1.5) 0 (- 48) = Raise ZeroDivisionError
  /\ water_content 0.5 (- 1.5) 5 0 = Raise ZeroDivisionError
  /\ water_content (- 0.5) (- 1.5) 5 (- 48)
     = Ok (Float (- 0.5 * Rpower (- 48 / - 1.5) (- 1 / 5))).
Proof.
  assert (Ha : Rabs (- 1.5) = 1.5) by (rewrite Rabs_left; lra).
  assert (Hb : Rabs 5 = 5) by (rewrite Rabs_right; lra).
  split; [| split; [| split]].
  - apply (proj1 (water_content_failures 0.5 0 5 (- 48))). reflexivity.
  - apply (proj1 (proj2 (water_content_failures 0.5 (- 1.5) 0 (- 48))));
      [lra | reflexivity].
  - apply (proj1 (proj2 (proj2 (water_content_failures 0.5 (- 1.5) 5 0))));
      [rewrite Ha | | reflexivity]; unfold ordinary; lra.
  - apply (proj2 (proj2 (proj2
             (water_content_failures (- 0.5) (- 1.5) 5 (- 48))))).
    + rewrite Ha. unfold ordinary. lra.
    + rewrite Hb. lra.
    + unfold ordinary. lra.
    + rewrite Rpower_inv_32. unfold ordinary. lra.
Defined.

(** X6.  A positive potential is not rejected: with a negative air-entry
    potential and a shape parameter above one (at most 1000), the potentials
    and their ratio being of ordinary magnitude, the base of the power is
    negative and the exponent [-1 / b] is not an integer, so
    [water_content] returns a complex number instead of a float. *)
Theorem water_content_positive_potential (theta_s psi_e b psi : R) :
  psi_e < 0 -> 1 < b <= 1000 -> 0 < psi ->
  ordinary (- psi_e) -> ordinary psi -> ordinary (- (psi / psi_e)) ->
  exists re im, water_content theta_s psi_e b psi = Ok (Complex re im).
Proof.
  intros He [Hb _] Hp _ _ Hr. rewrite water_content_pow by lra.
  assert (Hneg : psi / psi_e < 0) by (apply ordinary_pos in Hr; lra).
  assert (Hexp : - 1 < - 1 / b < 0).
  { unfold Rdiv.
    assert (Hi : 0 < / b) by (apply Rinv_0_lt_compat; lra).
    assert (Hone : b * / b = 1) by (apply Rinv_r; lra).
    split; nra. }
  unfold pow.
  destruct (total_order_T 0 (psi / psi_e)) as [[P | E] | _]; [lra | lra |].
  rewrite (is_integer_fraction _ Hexp).
  pose proof (Rpower_fraction_bounded _ _ Hr Hexp) as Hbound.
  destruct (Rle_dec DBL_OVERFLOW (Rpower (- (psi / psi_e)) (- 1 / b)))
    as [F | _]; [lra |].
  cbn [bind mul]. eauto.
Qed.

Lemma water_content_positive_potential_witness :
  (- 1.5 < 0 /\ 1 < 5 <= 1000 /\ 0 < 1)
  /\ exists re im, water_content 0.5 (- 1.5) 5 1 = Ok (Complex re im).
Proof.
  split; [lra |].
  apply (water_content_positive_potential 0.5 (- 1.5) 5 1);
    unfold ordinary; lra.
Defined.

(** X7.  [air_entry_pot] checks none of its arguments.  It raises
    [ZeroDivisionError] when the saturated water content is zero, and when
    the field capacity is zero with a negative shape parameter; it raises
    [OverflowError] when the power exceeds the float range (for positive
    contents of ordinary ratio and [|b| <= 1000]). *)
Theorem air_entry_pot_failures (field_capacity swc b : R) :
  (swc = 0 -> air_entry_pot field_capacity swc b = Raise ZeroDivisionError)
  /\ (ordinary (Rabs swc) -> ordinary (- b) -> field_capacity = 0 ->
      air_entry_pot field_capacity swc b = Raise ZeroDivisionError)
  /\ (0 < field_capacity -> 0 < swc -> ordinary (field_capacity / swc) ->
      Rabs b <= 1000 -> 1e309 <= Rpower (field_capacity / swc) b ->
      air_entry_pot field_capacity swc b = Raise OverflowError).
Proof.
  split; [| split].
  - intros ->. unfold air_entry_pot. rewrite truediv_zero. reflexivity.
  - intros Hs Hb ->.
    assert (Hs0 : swc <> 0).
    { intros E. subst swc. rewrite Rabs_R0 in Hs.
      apply ordinary_pos in Hs. lra. }
    apply ordinary_pos in Hb.
    rewrite air_entry_pot_pow by assumption.
    replace (0 / swc) with 0 by (field; assumption).
    rewrite pow_zero_neg by lra. reflexivity.
  - intros Hf Hs _ _ Hp. rewrite air_entry_pot_pow by lra.
    rewrite pow_overflow; [reflexivity | apply Rdiv_lt_0_compat; assumption |].
    destruct range_ends as [_ [_ [_ Ho]]]. lra.
Qed.

Lemma air_entry_pot_failures_witness :
  air_entry_pot 0.08 0 4.33 = Raise ZeroDivisionError
  /\ air_entry_pot 0 0.5 (- 1) = Raise ZeroDivisionError
  /\ air_entry_pot 1 0.1 400 = Raise OverflowError.
Proof.
  split; [| split].
  - apply (proj1 (air_entry_pot_failures 0.08 0 4.33)). reflexivity.
  - apply (proj1 (proj2 (air_entry_pot_failures 0 0.5 (- 1))));
      [rewrite Rabs_right by lra | | reflexivity]; unfold ordinary; lra.
  - apply (proj2 (proj2 (air_entry_pot_failures 1 0.1 400))); try lra.
    + unfold ordinary. lra.
    + rewrite Rabs_right; lra.
    + apply Rpower_10_400.
Defined.

(** ** How the parameters fit the curve to the two moisture points *)

Lemma Rpower_chain (x y z b : R) :
  0 < x -> 0 < y -> 0 < z ->
  Rpower (x / y) b * Rpower (y / z) b = Rpower (x / z) b.
Proof.
  intros Hx Hy Hz.
  rewrite Rpower_mult_distr by (apply Rdiv_lt_0_compat; assumption).
  f_equal. field. lra.
Qed.

Lemma Rpower_swap (x y b : R) :
  0 < x -> 0 < y -> Rpower (y / x) b = / Rpower (x / y) b.
Proof.
  intros Hx Hy. rewrite <- Rpower_Ropp. unfold Rpower.
  replace (y / x) with (/ (x / y)) by (field; lra).
  rewrite ln_Rinv by (apply Rdiv_lt_0_compat; assumption). f_equal. ring.
Qed.

Lemma ln_ratio (x y : R) : 0 < x -> 0 < y -> ln (x / y) = ln x - ln y.
Proof.
  intros Hx Hy. unfold Rdiv.
  rewrite ln_mult, ln_Rinv by (try apply Rinv_0_lt_compat; assumption). ring.
Qed.

Lemma ordinary_narrow (r : R) : 1e-290 <= r <= 1e290 -> ordinary r.
Proof. intros [Hlo Hhi]. split; lra. Qed.

Lemma ordinary_narrow_inv (r : R) : 1e-290 <= r <= 1e290 -> ordinary (/ r).
Proof. intros H. apply ordinary_inv, ordinary_narrow, H. Qed.

(** X8.  The air-entry potential returned by [air_entry_pot] puts the field
    capacity at -33 J/kg: for positive field capacity and saturated water
    content of ordinary ratio, [|b| <= 1000] and a power between [1e-290]
    and [1e290], [water_potential] with that air-entry potential, evaluated
    at the field capacity, returns [-33] within [1e-9]. *)
Theorem air_entry_pot_field_capacity (field_capacity swc b : R) :
  0 < field_capacity -> 0 < swc -> ordinary (field_capacity / swc) ->
  Rabs b <= 1000 -> 1e-290 <= Rpower (field_capacity / swc) b <= 1e290 ->
  exists psi_e psi,
    air_entry_pot field_capacity swc b = Ok (Float psi_e)
    /\ water_potential swc psi_e b field_capacity = Ok (Float psi)
    /\ Rabs (psi + 33) <= 1e-9.
Proof.
  intros Hf Hs _ _ Hp.
  exists (- 33 * Rpower (field_capacity / swc) b), (- 33). split; [| split].
  - apply air_entry_pot_ok; [assumption | assumption |].
    apply ordinary_narrow, Hp.
  - rewrite water_potential_ok;
      [| assumption | assumption
       | rewrite Rpower_swap by assumption; apply ordinary_narrow_inv, Hp].
    rewrite Rmult_assoc, Rpower_chain by assumption.
    replace (field_capacity / field_capacity) with 1 by (field; lra).
    rewrite Rpower_one_base. do 2 f_equal. ring.
  - replace (- 33 + 33) with 0 by ring. rewrite Rabs_R0. lra.
Qed.

Lemma Rpower_half_5 : Rpower (0.25 / 0.5) 5 = 0.03125.
Proof.
  replace (0.25 / 0.5) with 0.5 by lra.
  rewrite (Rpower_nat 0.5 5 5) by (reflexivity || lra). lra.
Qed.

Lemma air_entry_pot_field_capacity_witness :
  (0 < 0.25 /\ 0 < 0.5)
  /\ exists psi_e psi,
       air_entry_pot 0.25 0.5 5 = Ok (Float psi_e)
       /\ water_potential 0.5 psi_e 5 0.25 = Ok (Float psi)
       /\ Rabs (psi + 33) <= 1e-9.
Proof.
  split; [lra |].
  apply (air_entry_pot_field_capacity 0.25 0.5 5); try lra.
  - unfold ordinary. lra.
  - rewrite Rabs_right; lra.
  - rewrite Rpower_half_5. lra.
Defined.

(** X17.  For a field capacity at or above a positive saturated water
    content, [0.001 <= b <= 1000] and a ratio and power of ordinary
    magnitude, [air_entry_pot] accepts the arguments and returns
    [-33 * (field_capacity / sat_water_content) ** b], which is [-33] or
    less. *)
Theorem air_entry_pot_threshold (field_capacity swc b : R) :
  0 < swc <= field_capacity -> 0.001 <= b <= 1000 ->
  ordinary (field_capacity / swc) ->
  ordinary (Rpower (field_capacity / swc) b) ->
  exists psi_e,
    air_entry_pot field_capacity swc b = Ok (Float psi_e)
    /\ psi_e = - 33 * Rpower (field_capacity / swc) b
    /\ psi_e <= - 33.
Proof.
  intros [Hs Hle] [Hb _] Hr Hp. eexists. split; [| split].
  - apply air_entry_pot_ok; [lra | assumption | assumption].
  - reflexivity.
  - apply (quotient_ge_1_iff field_capacity swc Hs) in Hle.
    apply (Rpower_ge_1_iff _ b (ordinary_pos _ Hr)) in Hle; lra.
Qed.

Lemma air_entry_pot_threshold_witness :
  (0 < 0.25 <= 0.5 /\ 0.001 <= 5 <= 1000)
  /\ exists psi_e,
       air_entry_pot 0.5 0.25 5 = Ok (Float psi_e)
       /\ psi_e = - 33 * Rpower (0.5 / 0.25) 5
       /\ psi_e <= - 33.
Proof.
  split; [lra |].
  apply (air_entry_pot_threshold 0.5 0.25 5);
    try rewrite Rpower_2_5; unfold ordinary; lra.
Defined.

(** X20.  The failures of [b_value]: it raises [ValueError] whenever either
    content is zero or negative, and [ZeroDivisionError] whenever the two
    contents are equal and strictly positive.  For strictly positive
    contents that differ by at least one part in a thousand it returns
    [(ln 1500 - ln 33) / (ln fc - ln wp)], positive when the 33 J/kg content
    is the larger and negative when it is the smaller. *)
Theorem b_value_failures (fc wp : R) :
  (fc <= 0 \/ wp <= 0 -> b_value fc wp = Raise ValueError)
  /\ (0 < fc -> fc = wp -> b_value fc wp = Raise ZeroDivisionError)
  /\ (0 < wp -> 1.001 * wp <= fc ->
      exists b, b_value fc wp = Ok b
                /\ b = (ln 1500 - ln 33) / (ln fc - ln wp) /\ 0 < b)
  /\ (0 < fc -> 1.001 * fc <= wp ->
      exists b, b_value fc wp = Ok b
                /\ b = (ln 1500 - ln 33) / (ln fc - ln wp) /\ b < 0).
Proof.
  split; [| split; [| split]].
  - intros Hbad. unfold b_value. rewrite !log_ok by lra. cbn [bind].
    destruct (Rlt_le_dec 0 fc) as [Hf | Hf].
    + destruct Hbad as [Hbad | Hbad]; [lra |].
      rewrite (log_ok fc) by assumption. cbn [bind].
      rewrite log_domain by assumption. reflexivity.
    + rewrite log_domain by assumption. reflexivity.
  - intros Hf <-. unfold b_value. rewrite !log_ok by lra. cbn [bind].
    replace (ln fc - ln fc) with 0 by ring. apply truediv_zero.
  - intros Hw Hsep.
    destruct (b_value_sign fc wp) as [b [Hb [Hpos _]]]; [lra | lra | lra |].
    exists b. split; [exact Hb | split; [| apply Hpos; lra]].
    rewrite b_value_ok in Hb by lra. inversion Hb. reflexivity.
  - intros Hf Hsep.
    destruct (b_value_sign fc wp) as [b [Hb [_ Hneg]]]; [lra | lra | lra |].
    exists b. split; [exact Hb | split; [| apply Hneg; lra]].
    rewrite b_value_ok in Hb by lra. inversion Hb. reflexivity.
Qed.

Lemma b_value_failures_witness :
  b_value 0 0.03 = Raise ValueError
  /\ b_value 0.1 0.1 = Raise ZeroDivisionError
  /\ (exists b, b_value 0.08 0.03 = Ok b
                /\ b = (ln 1500 - ln 33) / (ln 0.08 - ln 0.03) /\ 0 < b)
  /\ (exists b, b_value 0.03 0.08 = Ok b
                /\ b = (ln 1500 - ln 33) / (ln 0.03 - ln 0.08) /\ b < 0).
Proof.
  split; [| split; [| split]].
  - apply (proj1 (b_value_failures 0 0.03)). left. lra.
  - apply (proj1 (proj2 (b_value_failures 0.1 0.1))); [lra | reflexivity].
  - apply (proj1 (proj2 (proj2 (b_value_failures 0.08 0.03)))); lra.
  - apply (proj2 (proj2 (proj2 (b_value_failures 0.03 0.08)))); lra.
Defined.

(** X9.  With the shape parameter taken from [b_value] and the air-entry
    potential from [air_entry_pot], the curve also passes through the
    wilting point: for moisture contents with [0.001 <= wp],
    [1.01 * wp <= fc] and [fc <= swc <= 1], and a power
    [(fc / swc) ** b] of at least [1e-290], [water_potential] evaluated at
    the 1500 J/kg water content returns [-1500] within [1e-3]. *)
Theorem b_value_wilting_point (fc wp swc : R) :
  0.001 <= wp -> 1.01 * wp <= fc -> fc <= swc -> swc <= 1 ->
  1e-290 <= Rpower (fc / swc) ((ln 1500 - ln 33) / (ln fc - ln wp)) ->
  exists b psi_e psi,
    b_value fc wp = Ok b
    /\ air_entry_pot fc swc b = Ok (Float psi_e)
    /\ water_potential swc psi_e b wp = Ok (Float psi)
    /\ Rabs (psi + 1500) <= 1e-3.
Proof.
  intros Hw Hsep Hfs Hs1 Hlow.
  assert (Hw0 : 0 < wp) by lra.
  assert (Hf0 : 0 < fc) by lra.
  assert (Hs0 : 0 < swc) by lra.
  assert (Hne : fc <> wp) by lra.
  set (b := (ln 1500 - ln 33) / (ln fc - ln wp)) in *.
  assert (Hd : 0 < ln fc - ln wp)
    by (assert (ln wp < ln fc) by (apply ln_increasing; lra); lra).
  assert (Hb : 0 < b).
  { unfold b, Rdiv. apply Rmult_lt_0_compat; [apply ln_1500_33 |].
    apply Rinv_0_lt_compat. exact Hd. }
  assert (Hr : 0 < fc / swc <= 1).
  { split; [apply Rdiv_lt_0_compat; assumption |].
    apply Rmult_le_reg_r with swc; [assumption |].
    unfold Rdiv. rewrite Rmult_assoc, Rinv_l by lra. lra. }
  assert (Hp1 : 1e-290 <= Rpower (fc / swc) b <= 1e290).
  { split; [exact Hlow |].
    apply Rle_trans with 1; [apply Rpower_le_1; assumption | lra]. }
  assert (Hfw : Rpower (fc / wp) b = 1500 / 33).
  { unfold Rpower. rewrite ln_ratio by assumption.
    replace (b * (ln fc - ln wp)) with (ln 1500 + - ln 33)
      by (unfold b; field; lra).
    rewrite exp_plus, exp_Ropp, !exp_ln by lra. reflexivity. }
  assert (Hsw : Rpower (swc / wp) b = / Rpower (fc / swc) b * (1500 / 33)).
  { rewrite <- Hfw, <- (Rpower_swap fc swc b) by assumption.
    symmetry. apply Rpower_chain; assumption. }
  assert (Hinv : 1e-290 <= / Rpower (fc / swc) b <= 1e290).
  { pose proof (ordinary_narrow_inv _ Hp1) as [_ Hhi].
    assert (Hpos : 0 < Rpower (fc / swc) b) by apply exp_pos.
    split.
    - apply Rle_trans with (/ 1); [rewrite Rinv_1; lra |].
      apply Rinv_le_contravar; [assumption |].
      apply Rpower_le_1; assumption.
    - apply Rmult_le_reg_l with (Rpower (fc / swc) b); [assumption |].
      rewrite Rinv_r by lra.
      apply Rle_trans with (1e-290 * 1e290); [lra |].
      apply Rmult_le_compat_r; lra. }
  exists b, (- 33 * Rpower (fc / swc) b), (- 1500).
  split; [apply b_value_ok; assumption |].
  split; [apply air_entry_pot_ok; try assumption; apply ordinary_narrow, Hp1 |].
  split.
  - rewrite water_potential_ok; [| assumption | assumption |].
    + rewrite Hsw. do 2 f_equal. field.
      assert (0 < Rpower (fc / swc) b) by apply exp_pos. lra.
    + rewrite Hsw. destruct Hinv as [Hlo Hhi]. split; nra.
  - replace (- 1500 + 1500) with 0 by ring. rewrite Rabs_R0. lra.
Qed.

Lemma b_value_wilting_point_witness :
  (0.001 <= 0.03 /\ 1.01 * 0.03 <= 0.08 /\ 0.08 <= 0.08 /\ 0.08 <= 1)
  /\ exists b psi_e psi,
       b_value 0.08 0.03 = Ok b
       /\ air_entry_pot 0.08 0.08 b = Ok (Float psi_e)
       /\ water_potential 0.08 psi_e b 0.03 = Ok (Float psi)
       /\ Rabs (psi + 1500) <= 1e-3.
Proof.
  split; [lra |].
  apply (b_value_wilting_point 0.08 0.03 0.08); try lra.
  replace (0.08 / 0.08) with 1 by lra. rewrite Rpower_one_base. lra.
Defined.

(** ** Bulk density and estimated organic matter on the calibration range *)

Section CalibrationBounds.

Variables clay sand organic_matter : R.
Hypothesis clay_range : 0.03 <= clay <= 0.5.
Hypothesis sand_nonneg : 0 <= sand.
Hypothesis fractions : clay + sand <= 1.
Hypothesis organic_matter_range : 0 <= organic_matter <= 8.

Lemma saturation_lower : 0.34 < sat_water_content_est clay sand organic_matter.
Proof using All.
  unfold sat_water_content_est, vol_water_content_33_j_kg. cbv zeta.
  match goal with |- context [ ?t ^ 2 ] => set (x := t) end.
  pose proof (pow2_ge_0 (x - 0.3)) as Hsq.
  assert (Hlin :
    0.34 < - 0.015 - 1.283 * 0.3 ^ 2 + (0.636 + 2.566 * 0.3) * x + 0.043
    + (- 0.107 + 1.636 * (0.078 + 0.278 * sand + 0.034 * clay
                          + 0.022 * organic_matter
                          - 0.018 * sand * organic_matter
                          - 0.027 * clay * organic_matter
                          - 0.584 * sand * clay))
    - 0.097 * sand)
    by (unfold x; nra).
  nra.
Qed.

Lemma saturation_upper : sat_water_content_est clay sand organic_matter < 0.8.
Proof using All.
  unfold sat_water_content_est, vol_water_content_33_j_kg. cbv zeta.
  match goal with |- context [ ?t ^ 2 ] => set (x := t) end.
  assert (Hx : 0.05 <= x <= 0.45) by (unfold x; split; nra).
  assert (Hsq : x ^ 2 <= 0.5 * x - 0.0225) by nra.
  assert (Hlin :
    - 0.015 + 0.636 * x + 1.283 * (0.5 * x - 0.0225) + 0.043
    + (- 0.107 + 1.636 * (0.078 + 0.278 * sand + 0.034 * clay
                          + 0.022 * organic_matter
                          - 0.018 * sand * organic_matter
                          - 0.027 * clay * organic_matter
                          - 0.584 * sand * clay))
    - 0.097 * sand < 0.8)
    by (unfold x; nra).
  nra.
Qed.

End CalibrationBounds.

(** X12.  On the calibration range ([0.03 <= clay <= 0.5], [sand >= 0],
    [clay + sand <= 1], [0 <= organic_matter <= 8]) the bulk density returned
    by [get_bulk_density] lies strictly between 0.53 and 1.75 Mg/m3, so it is
    positive and below the particle density. *)
Theorem get_bulk_density_range (clay sand organic_matter : R) :
  0.03 <= clay <= 0.5 -> 0 <= sand -> clay + sand <= 1 ->
  0 <= organic_matter <= 8 ->
  0.53 < get_bulk_density clay sand organic_matter < 1.75.
Proof.
  intros Hc Hs Hcs Ho.
  pose proof (saturation_lower _ _ _ Hc Hs Hcs Ho) as Hlo.
  pose proof (saturation_upper _ _ _ Hc Hs Hcs Ho) as Hhi.
  unfold get_bulk_density, MIN_SOIL_PARTICLE_DENS. lra.
Qed.

Lemma get_bulk_density_range_witness :
  (0.03 <= 0.15 <= 0.5 /\ 0 <= 0.2 /\ 0.15 + 0.2 <= 1 /\ 0 <= 2.29 <= 8)
  /\ 0.53 < get_bulk_density 0.15 0.2 2.29 < 1.75.
Proof.
  split; [lra | apply (get_bulk_density_range 0.15 0.2 2.29); lra].
Defined.

(** X13.  When the organic matter is not measured but estimated from the
    clay content by [organic_m], every texture with [0.03 <= clay <= 0.5],
    [sand >= 0] and [clay + sand <= 1] gets an estimate between 1.906 and
    3.41 percent, and with that estimate the moisture points are ordered
    [0 < vol_water_content_1500_jkg < vol_water_content_33_j_kg] and
    [b_value] returns a strictly positive shape parameter. *)
Theorem organic_m_texture_ordering (clay sand : R) :
  0.03 <= clay <= 0.5 -> 0 <= sand -> clay + sand <= 1 ->
  let om := organic_m clay in
  let wp := vol_water_content_1500_jkg clay sand om in
  let fc := vol_water_content_33_j_kg clay sand om in
  1.906 <= om <= 3.41
  /\ 0 < wp < fc
  /\ exists b, b_value fc wp = Ok b /\ 0 < b.
Proof.
  intros Hc Hs Hcs om wp fc.
  assert (Hom : 1.906 <= om <= 3.41) by (unfold om, organic_m; lra).
  assert (Ho : 0 <= om <= 8) by lra.
  pose proof (wilting_point_pos _ _ _ Hc Hs Hcs Ho) as Hwp.
  pose proof (wilting_point_lt_field_capacity _ _ _ Hc Hs Hcs Ho) as Hlt.
  fold wp in Hwp, Hlt. fold fc in Hlt.
  split; [exact Hom | split; [split; assumption |]].
  destruct (b_value_sign fc wp) as [b [Hb [Hpos _]]]; [lra | lra | lra |].
  exists b. split; [exact Hb | apply Hpos, Hlt].
Qed.

Lemma organic_m_texture_ordering_witness :
  (0.03 <= 0.03 <= 0.5 /\ 0 <= 0.92 /\ 0.03 + 0.92 <= 1)
  /\ 1.906 <= organic_m 0.03 <= 3.41
  /\ 0 < vol_water_content_1500_jkg 0.03 0.92 (organic_m 0.03)
       < vol_water_content_33_j_kg 0.03 0.92 (organic_m 0.03)
  /\ exists b,
       b_value (vol_water_content_33_j_kg 0.03 0.92 (organic_m 0.03))
               (vol_water_content_1500_jkg 0.03 0.92 (organic_m 0.03)) = Ok b
       /\ 0 < b.
Proof.
  split; [lra | apply (organic_m_texture_ordering 0.03 0.92); lra].
Defined.

(** X14.  The regressions are not checked before the shape parameter is
    computed: for a soil without clay and without organic matter whose sand
    fraction is at least 0.57, [vol_water_content_1500_jkg] is negative, and
    [b_value] of the two moisture contents raises [ValueError]. *)
Theorem b_value_coarse_sand (sand : R) :
  0.57 <= sand <= 1 ->
  vol_water_content_1500_jkg 0 sand 0 < 0
  /\ b_value (vol_water_content_33_j_kg 0 sand 0)
             (vol_water_content_1500_jkg 0 sand 0) = Raise ValueError.
Proof.
  intros Hs.
  assert (Hw : vol_water_content_1500_jkg 0 sand 0 < 0)
    by (unfold vol_water_content_1500_jkg; cbv zeta; lra).
  split; [exact Hw |].
  unfold b_value. rewrite !log_ok by lra. cbn [bind].
  destruct (Rlt_le_dec 0 (vol_water_content_33_j_kg 0 sand 0)) as [Hf | Hf].
  - rewrite (log_ok _ Hf). cbn [bind].
    rewrite log_domain by lra. reflexivity.
  - rewrite log_domain by assumption. reflexivity.
Qed.

Lemma b_value_coarse_sand_witness :
  0.57 <= 1 <= 1
  /\ vol_water_content_1500_jkg 0 1 0 < 0
  /\ b_value (vol_water_content_33_j_kg 0 1 0)
             (vol_water_content_1500_jkg 0 1 0) = Raise ValueError.
Proof.
  split; [lra | apply (b_value_coarse_sand 1); lra].
Defined.

(** ** Vapour pressure *)

Lemma vapor_pressure_air_ok (vp_min vp_max rh_max rh_min : R) :
  vapor_pressure_air vp_min vp_max rh_max rh_min
  = Ok (0.5 * (vp_min * rh_max / 100 + vp_max * rh_min / 100)).
Proof.
  unfold vapor_pressure_air. rewrite !truediv_ok by lra. cbn [bind].
  f_equal. lra.
Qed.

Lemma vapor_press_defct_ave_ok (vp_max vp_min vp_air : R) :
  vapor_press_defct_ave vp_max vp_min vp_air
  = Ok ((vp_max + vp_min) / 2 - vp_air).
Proof.
  unfold vapor_press_defct_ave. rewrite truediv_ok by lra. cbn [bind].
  f_equal. lra.
Qed.


Example vapor_pressure_air_doctest :
  exists e, vapor_pressure_air 1.817 5.320 87 25 = Ok e
            /\ Rabs (e - 1.455) <= 0.0005.
Proof.
  eexists. split; [apply vapor_pressure_air_ok |]. apply Rabs_le. lra.
Qed.


